(** * Contact-form backend (server.js): the intake handlers of the three
      revisions of the server, embedded as state-passing functions.

    The repository holds three revisions of the same Express server:
    - revision [A] (server/server.js with optional mail and optional DB),
    - revision [B] (server/server.js with [sendContactEmail] and the
      [/api/mail/test] route),
    - revision [C] (the root server.js, where DB and mail are unconditional).

    JavaScript strings are sequences of UTF-16 code units, JSON payloads are
    an inductive type, the two external collaborators (the mongoose model and
    the nodemailer transporter) are records of oracle functions, and an
    [async] handler is a function from the world before the request to an
    outcome and the world after it. *)

From Stdlib Require Import List NArith ZArith Bool String Ascii Lia.
From Stdlib Require Import DecimalString.
Import ListNotations.

Set Implicit Arguments.

(** ** JavaScript strings *)

Module JsString.

Definition char := N.
Definition jsstring := list char.

Definition lit (s : string) : jsstring :=
  List.map N_of_ascii (list_ascii_of_string s).

Definition char_eqb (a b : char) : bool := N.eqb a b.

Fixpoint eqb (s t : jsstring) : bool :=
  match s, t with
  | [], [] => true
  | a :: s', b :: t' => char_eqb a b && eqb s' t'
  | _, _ => false
  end.

(** WhiteSpace and LineTerminator code points of ECMAScript: what
    [String.prototype.trim] strips and what the class [\s] matches. *)
Definition is_space (c : char) : bool :=
  match c with
  | 9 | 10 | 11 | 12 | 13 | 32 | 160 | 5760
  | 8192 | 8193 | 8194 | 8195 | 8196 | 8197 | 8198 | 8199 | 8200 | 8201 | 8202
  | 8232 | 8233 | 8239 | 8287 | 12288 | 65279 => true
  | _ => false
  end%N.

Fixpoint trimStart (s : jsstring) : jsstring :=
  match s with
  | c :: s' => if is_space c then trimStart s' else s
  | [] => []
  end.

Definition trimEnd (s : jsstring) : jsstring := rev (trimStart (rev s)).

Definition trim (s : jsstring) : jsstring := trimEnd (trimStart s).

(** [s.length] is truthy, [!s] for a string [s]. *)
Definition nonempty (s : jsstring) : bool :=
  match s with [] => false | _ :: _ => true end.

(** [a.join(sep)] on strings already rendered. *)
Fixpoint join (sep : jsstring) (parts : list jsstring) : jsstring :=
  match parts with
  | [] => []
  | [p] => p
  | p :: rest => p ++ sep ++ join sep rest
  end.

End JsString.
Import JsString.

(** ** Regular expressions

    [/^...$/.test(s)] without flags: the whole string has to be in the
    language of the pattern.  The matcher runs Brzozowski derivatives. *)

Module Regex.

Inductive regex : Type :=
| Void : regex
| Eps : regex
| Class : (char -> bool) -> regex
| Cat : regex -> regex -> regex
| Alt : regex -> regex -> regex
| Star : regex -> regex.

Definition Plus (r : regex) : regex := Cat r (Star r).
Definition Chr (c : char) : regex := Class (char_eqb c).

Fixpoint nullable (r : regex) : bool :=
  match r with
  | Void => false
  | Eps => true
  | Class _ => false
  | Cat r1 r2 => nullable r1 && nullable r2
  | Alt r1 r2 => nullable r1 || nullable r2
  | Star _ => true
  end.

Fixpoint deriv (c : char) (r : regex) : regex :=
  match r with
  | Void => Void
  | Eps => Void
  | Class p => if p c then Eps else Void
  | Cat r1 r2 =>
      if nullable r1
      then Alt (Cat (deriv c r1) r2) (deriv c r2)
      else Cat (deriv c r1) r2
  | Alt r1 r2 => Alt (deriv c r1) (deriv c r2)
  | Star r1 => Cat (deriv c r1) (Star r1)
  end.

Fixpoint test (r : regex) (s : jsstring) : bool :=
  match s with
  | [] => nullable r
  | c :: s' => test (deriv c r) s'
  end.

(** The language of a pattern. *)
Inductive Matches : regex -> jsstring -> Prop :=
| MEps : Matches Eps []
| MClass p c : p c = true -> Matches (Class p) [c]
| MCat r1 r2 s1 s2 :
    Matches r1 s1 -> Matches r2 s2 -> Matches (Cat r1 r2) (s1 ++ s2)
| MAltL r1 r2 s : Matches r1 s -> Matches (Alt r1 r2) s
| MAltR r1 r2 s : Matches r2 s -> Matches (Alt r1 r2) s
| MStarNil r : Matches (Star r) []
| MStarApp r s1 s2 :
    Matches r s1 -> Matches (Star r) s2 -> Matches (Star r) (s1 ++ s2).

End Regex.
Import Regex.

(** ** The email pattern of the contact handler

    [/^[^\s@]+@[^\s@]+\.[^\s@]+$/] *)

Definition AT : char := 64%N.
Definition DOT : char := 46%N.

(** The class [[^\s@]]. *)
Definition not_space_at (c : char) : bool := negb (is_space c || char_eqb AT c).

Definition email_pattern : regex :=
  Cat (Plus (Class not_space_at))
    (Cat (Chr AT)
      (Cat (Plus (Class not_space_at))
        (Cat (Chr DOT) (Plus (Class not_space_at))))).

Definition emailOk (email : jsstring) : bool := test email_pattern email.

(** The shape in the words of the specification:
    non-whitespace [@] non-whitespace [.] non-whitespace. *)
Definition nonspace (s : jsstring) : Prop :=
  s <> [] /\ Forall (fun c => is_space c = false) s.

Definition spec_email_shape (s : jsstring) : Prop :=
  exists x y z, s = x ++ AT :: y ++ DOT :: z /\
                nonspace x /\ nonspace y /\ nonspace z.

(** The shape the pattern has: the three parts hold no [@] either. *)
Definition nonspace_noat (s : jsstring) : Prop :=
  s <> [] /\ Forall (fun c => not_space_at c = true) s.

Definition email_shape (s : jsstring) : Prop :=
  exists x y z, s = x ++ AT :: y ++ DOT :: z /\
                nonspace_noat x /\ nonspace_noat y /\ nonspace_noat z.

(** ** Completions, JSON values and the coercions of the handlers *)

(** What a [catch] clause can receive. *)
Inductive exn : Type :=
| TypeError : exn            (* raised by the language itself *)
| RangeError : exn           (* the call stack is exhausted *)
| StorageError : exn         (* the mongoose model rejected or threw *)
| MailError : exn.           (* the transporter rejected or threw *)

Inductive completion (A : Type) : Type :=
| Normal : A -> completion A
| Throw : exn -> completion A.
Arguments Normal {A} _.
Arguments Throw {A} _.

(** JSON numbers are IEEE doubles; their truthiness ([0] and [-0] are
    falsy) and their rendering by [String(n)] are taken as an interface. *)
Class JsNumber : Type := {
  number : Type;
  NumberToBoolean : number -> bool;
  NumberToString : number -> jsstring
}.

(** The call stack left to [String(...)]: how many arrays inside one
    another it can enter before the engine raises
    [RangeError: Maximum call stack size exceeded].  The number depends on
    the engine and its stack size and is taken as an interface. *)
Class JsEngine : Type := {
  stack_budget : nat
}.

Section Json.

Context {NUM : JsNumber} {ENGINE : JsEngine}.

(** A parsed JSON value.  The property list of an object holds its own
    properties, each key once; [undefined] is the [None] of a property
    lookup. *)
#[warnings="-register-all"]
Inductive value : Type :=
| JNull : value
| JBool : bool -> value
| JNumber : number -> value
| JString : jsstring -> value
| JArray : list value -> value
| JObject : list (jsstring * value) -> value.

Fixpoint own_property (props : list (jsstring * value)) (k : jsstring)
  : option value :=
  match props with
  | [] => None
  | (k', v) :: rest => if JsString.eqb k' k then Some v else own_property rest k
  end.

(** [const { k } = v]: none of the four keys read by the handlers lives on
    a prototype, so only an object's own properties answer. *)
Definition Get (v : value) (k : jsstring) : option value :=
  match v with
  | JObject props => own_property props k
  | _ => None
  end.

Definition ToBoolean (v : value) : bool :=
  match v with
  | JNull => false
  | JBool b => b
  | JNumber n => NumberToBoolean n
  | JString s => nonempty s
  | JArray _ => true
  | JObject _ => true
  end.

(** Truthiness of a destructured binding, [undefined] included. *)
Definition truthy (o : option value) : bool :=
  match o with
  | Some v => ToBoolean v
  | None => false
  end.

Definition has_own (props : list (jsstring * value)) (k : jsstring) : bool :=
  match own_property props k with Some _ => true | None => false end.

(** [String(v)] with [fuel] arrays left to enter.  An array renders its
    elements joined by commas, [null] elements as the empty string; each
    array entered is a nested call of [Array.prototype.join], and entering
    one with no stack left raises a [RangeError].  A plain object renders
    through [Object.prototype.toString], unless it has an own property
    [toString]: a JSON value is never callable, so [OrdinaryToPrimitive]
    finds no method returning a primitive and raises a [TypeError]. *)
Fixpoint ToStringWithin (fuel : nat) (v : value) {struct v}
  : completion jsstring :=
  match v with
  | JNull => Normal (lit "null")
  | JBool true => Normal (lit "true")
  | JBool false => Normal (lit "false")
  | JNumber n => Normal (NumberToString n)
  | JString s => Normal s
  | JArray items =>
      match fuel with
      | O => Throw RangeError
      | S fuel' =>
          let elements :=
            (fix elements (l : list value) : completion (list jsstring) :=
               match l with
               | [] => Normal []
               | x :: l' =>
                   match (match x with
                          | JNull => Normal []
                          | _ => ToStringWithin fuel' x
                          end) with
                   | Normal s =>
                       match elements l' with
                       | Normal ss => Normal (s :: ss)
                       | Throw e => Throw e
                       end
                   | Throw e => Throw e
                   end
               end) in
          match elements items with
          | Normal ss => Normal (join (lit ",") ss)
          | Throw e => Throw e
          end
      end
  | JObject props =>
      if has_own props (lit "toString") then Throw TypeError
      else Normal (lit "[object Object]")
  end.

(** [String(v)] as the handlers call it. *)
Definition ToString (v : value) : completion jsstring :=
  ToStringWithin stack_budget v.

(** [x || ''] *)
Definition or_empty (o : option value) : value :=
  match o with
  | Some v => if ToBoolean v then v else JString []
  | None => JString []
  end.

(** [String(x || '').trim()] *)
Definition clean_field (o : option value) : completion jsstring :=
  match ToString (or_empty o) with
  | Normal s => Normal (trim s)
  | Throw e => Throw e
  end.

(** [process.env.X || fallback] and [a || b] on optional strings. *)
Definition env_or (o : option jsstring) (fallback : jsstring) : jsstring :=
  match o with
  | Some s => if nonempty s then s else fallback
  | None => fallback
  end.

Definition or_else (a b : option jsstring) : option jsstring :=
  match a with
  | Some s => if nonempty s then a else b
  | None => b
  end.

(** [Boolean(process.env.X)] *)
Definition env_set (o : option jsstring) : bool :=
  match o with
  | Some s => nonempty s
  | None => false
  end.

(** ** Requests and responses *)

Record request : Type := {
  body : option value;                 (* [req.body] *)
  x_forwarded_for : option jsstring;   (* [req.headers['x-forwarded-for']] *)
  remoteAddress : option jsstring;     (* [req.socket.remoteAddress] *)
  ip : option jsstring                 (* [req.ip] *)
}.

Record response : Type := {
  status : N;
  json : value
}.

(** [req.body || {}] *)
Definition body_or_empty (b : option value) : value :=
  match b with
  | Some v => if ToBoolean v then v else JObject []
  | None => JObject []
  end.

(** ** The collaborators *)

Definition ObjectId := jsstring.

(** The field set handed to [Contact.create] or [new Contact]. *)
Record fields : Type := {
  f_name : option value;
  f_email : option value;
  f_message : option value;
  f_ip : option jsstring;
  f_createdAt : option N
}.

(** A mongoose document: the identifier is assigned at construction, the
    paths hold what the schema's casting and setters made of the fields. *)
Record document : Type := {
  _id : ObjectId;
  d_name : option jsstring;
  d_email : option jsstring;
  d_message : option jsstring;
  d_ip : option jsstring;
  d_source : fields
}.

(** The mongoose model compiled from [contactSchema], as an oracle: how a
    document is built from a field set, and whether the backend takes it. *)
Record Model : Type := {
  construct : list document -> fields -> document;
  save : list document -> document -> completion unit
}.

(** The markup of the two notification templates, by what they interpolate. *)
Inductive html_body : Type :=
| InquiryHtml (name email message : jsstring) (saved_as : option ObjectId)
| SubmissionHtml (name email message ip : jsstring).

Record mail : Type := {
  m_from : jsstring;
  m_to : jsstring;
  m_subject : jsstring;
  m_replyTo : option jsstring;
  m_html : html_body
}.

Record info : Type := {
  accepted : option (list jsstring);
  messageId : option jsstring
}.

(** The nodemailer transporter, as an oracle for [sendMail]. *)
Record Transporter : Type := {
  sendMail : mail -> completion (option info)
}.

(** ** Worlds and the handler monad *)

Inductive event : Type :=
| DbWrite : document -> event          (* the storage collaborator was called *)
| MailSend : mail -> event             (* the mail collaborator was called *)
| ConsoleError : jsstring -> event
| ConsoleLog : jsstring -> event.

Record world : Type := {
  db : list document;      (* the durable records *)
  now : N;                 (* [new Date()] *)
  trace : list event       (* collaborator calls and log lines, oldest first *)
}.

Definition M (A : Type) : Type := world -> completion A * world.

Definition ret {A} (a : A) : M A := fun w => (Normal a, w).

Definition bind {A B} (c : M A) (k : A -> M B) : M B :=
  fun w =>
    match c w with
    | (Normal a, w') => k a w'
    | (Throw e, w') => (Throw e, w')
    end.

Definition throw {A} (e : exn) : M A := fun w => (Throw e, w).

Definition lift {A} (c : completion A) : M A := fun w => (c, w).

(** [try { c } catch (err) { h err }]: the world reached when [c] threw is
    the world the handler of the exception starts from. *)
Definition try_catch {A} (c : M A) (h : exn -> M A) : M A :=
  fun w =>
    match c w with
    | (Normal a, w') => (Normal a, w')
    | (Throw e, w') => h e w'
    end.

Definition emit (e : event) : M unit :=
  fun w => (Normal tt, {| db := db w; now := now w; trace := trace w ++ [e] |}).

Definition clock : M N := fun w => (Normal (now w), w).

End Json.

Declare Scope handler_scope.
Delimit Scope handler_scope with handler.
Notation "x <- c ;; k" := (bind c (fun x => k))
  (at level 61, c at next level, right associativity) : handler_scope.

(** ** What the three revisions share *)

Section Shared.

Context {NUM : JsNumber} {ENGINE : JsEngine}.
Local Open Scope handler_scope.

Record process_env : Type := {
  SENDGRID_SMTP_PASS : option jsstring;
  MONGO_URI : option jsstring;
  MAIL_FROM : option jsstring;
  MAIL_TO : option jsstring
}.

(** [new Contact(f)] *)
Definition model_new (m : Model) (f : fields) : M document :=
  fun w => (Normal (construct m (db w) f), w).

(** [await doc.save()]: the call is traced; the record is durable exactly
    when the promise resolves. *)
Definition model_save (m : Model) (doc : document) : M unit :=
  fun w =>
    let t := trace w ++ [DbWrite doc] in
    match save m (db w) doc with
    | Normal u => (Normal u, {| db := db w ++ [doc]; now := now w; trace := t |})
    | Throw e => (Throw e, {| db := db w; now := now w; trace := t |})
    end.

(** [await Contact.create(f)] *)
Definition model_create (m : Model) (f : fields) : M document :=
  doc <- model_new m f ;;
  _ <- model_save m doc ;;
  ret doc.

(** [await transporter.sendMail(m)] *)
Definition transporter_sendMail (t : Transporter) (m : mail)
  : M (option info) :=
  fun w =>
    (sendMail t m,
     {| db := db w; now := now w; trace := trace w ++ [MailSend m] |}).

(** The [cleaned] object of revisions A and C. *)
Record cleaned : Type := {
  name : jsstring;
  email : jsstring;
  message : jsstring;
  c_ip : option jsstring
}.

(** [const cleaned = { name: ..., email: ..., message: ..., ip: ... }]: the
    fields are evaluated in this order, and the first [String(...)] that
    throws ends the evaluation. *)
Definition normalize (req : request) (name email message : option value)
  : completion cleaned :=
  match clean_field name with
  | Throw e => Throw e
  | Normal n =>
      match clean_field email with
      | Throw e => Throw e
      | Normal e =>
          match clean_field message with
          | Throw e' => Throw e'
          | Normal m =>
              Normal {| name := n; email := e; message := m;
                        c_ip := or_else (x_forwarded_for req)
                                        (remoteAddress req) |}
          end
      end
  end.

(** [!cleaned.name || !emailOk || !cleaned.message] *)
Definition invalid (c : cleaned) : bool :=
  negb (nonempty (name c)) || negb (emailOk (email c))
  || negb (nonempty (message c)).

(** [cleaned] as the argument of [Contact.create]; [createdAt] is left to
    the schema's default. *)
Definition fields_of (c : cleaned) : fields :=
  {| f_name := Some (JString (name c)); f_email := Some (JString (email c));
     f_message := Some (JString (message c)); f_ip := c_ip c;
     f_createdAt := None |}.

(** An identifier, or [null], as [res.json] serialises it. *)
Definition id_json (id : option ObjectId) : value :=
  match id with
  | Some i => JString i
  | None => JNull
  end.

(** [{ success: true, saved, id, mailed }] *)
Definition success_json (saved : bool) (id : option ObjectId) (mailed : bool)
  : value :=
  JObject [(lit "success", JBool true); (lit "saved", JBool saved);
           (lit "id", id_json id); (lit "mailed", JBool mailed)].

(** [Boolean(x)] for a handle that is an object or [null]. *)
Definition is_some {A} (o : option A) : bool :=
  match o with Some _ => true | None => false end.

(** [res.status(n).json(v)] *)
Definition respond (n : N) (v : value) : response :=
  {| status := n; json := v |}.

Definition EM_DASH : char := 8212%N.

End Shared.

(** ** Revision A: optional mail, optional DB, guarded by flags *)

Module RevA.
Section RevA.

Context {NUM : JsNumber} {ENGINE : JsEngine}.
Local Open Scope handler_scope.

Record state : Type := {
  transporter : option Transporter;
  dbReady : bool;
  Contact : option Model;
  env : process_env
}.

(** Module initialisation followed by [connectDB()] inside the start-up
    [try]: [createTransport] and [model] are what nodemailer and mongoose
    hand back, [connect] is the completion of [mongoose.connect(uri)]. *)
Definition boot (penv : process_env) (createTransport : Transporter)
  (connect : completion unit) (model : Model) : state :=
  let t := if env_set (SENDGRID_SMTP_PASS penv)
           then Some createTransport else None in
  if env_set (MONGO_URI penv) then
    match connect with
    | Normal _ =>
        {| transporter := t; dbReady := true; Contact := Some model;
           env := penv |}
    | Throw _ =>
        {| transporter := t; dbReady := false; Contact := None; env := penv |}
    end
  else {| transporter := t; dbReady := false; Contact := None; env := penv |}.

Definition inquiry_mail (st : state) (c : cleaned) (id : option ObjectId)
  : mail :=
  {| m_from := env_or (MAIL_FROM (env st)) (lit "Ops Scale <noreply@opsscale.tech>");
     m_to := env_or (MAIL_TO (env st)) (lit "you@example.com");
     m_subject := lit "Ops Scale " ++ [EM_DASH] ++ lit " New Inquiry from "
                  ++ name c;
     m_replyTo := Some (email c);
     m_html := InquiryHtml (name c) (email c) (message c) id |}.

(** [dbReady && Contact]: the model the handler writes through, if any. *)
Definition storage (st : state) : option Model :=
  if dbReady st then Contact st else None.

(** [// Save if DB is available]: the pair [(saved, id)] after the block. *)
Definition save_if_available (st : state) (c : cleaned)
  : M (bool * option ObjectId) :=
  match storage st with
  | Some model =>
      doc <- model_create model (fields_of c) ;;
      ret (true, Some (_id doc))
  | None => ret (false, None)
  end.

(** [// Email if mail is available] *)
Definition email_if_available (st : state) (c : cleaned)
  (id : option ObjectId) : M unit :=
  match transporter st with
  | Some t =>
      _ <- transporter_sendMail t (inquiry_mail st c id) ;;
      ret tt
  | None => ret tt
  end.

(** [catch (err) { ... }] *)
Definition on_error (err : exn) : M response :=
  _ <- emit (ConsoleError (lit "[api/contact] error:")) ;;
  ret (respond 500 (JObject [(lit "success", JBool false);
                             (lit "error", JString (lit "Server error."))])).

(** [app.post('/api/contact', ...)] *)
Definition contact (st : state) (req : request) : M response :=
  try_catch
    (let b := body_or_empty (body req) in
     let name_ := Get b (lit "name") in
     let email_ := Get b (lit "email") in
     let message_ := Get b (lit "message") in
     let company := Get b (lit "company") in
     if truthy company
     then ret (respond 200 (JObject [(lit "success", JBool true)]))
     else
       c <- lift (normalize req name_ email_ message_) ;;
       if invalid c
       then ret (respond 400 (JObject [(lit "success", JBool false);
                                       (lit "error", JString (lit "Invalid input."))]))
       else
         stored <- save_if_available st c ;;
         let saved := fst stored in
         let id := snd stored in
         _ <- email_if_available st c id ;;
         ret (respond 200
                (success_json saved id (is_some (transporter st)))))
    on_error.

(** [app.get('/health', ...)] *)
Definition health (st : state) : response :=
  respond 200 (JObject [(lit "ok", JBool true); (lit "db", JBool (dbReady st));
                        (lit "mail", JBool (is_some (transporter st)))]).

End RevA.
End RevA.

(** ** Revision B: [sendContactEmail], no flags around the model *)

Module RevB.
Section RevB.

Context {NUM : JsNumber} {ENGINE : JsEngine}.
Local Open Scope handler_scope.

Record state : Type := {
  transporter : option Transporter;
  dbReady : bool;
  Contact : option Model;
  readyState : N;                  (* [mongoose.connection.readyState] *)
  env : process_env
}.

(** Module initialisation followed by [connectDB()] inside the start-up
    [try], as in revision A; the connection is in state [1] (connected)
    once [mongoose.connect] has resolved and in state [0] otherwise. *)
Definition boot (penv : process_env) (createTransport : Transporter)
  (connect : completion unit) (model : Model) : state :=
  let t := if env_set (SENDGRID_SMTP_PASS penv)
           then Some createTransport else None in
  if env_set (MONGO_URI penv) then
    match connect with
    | Normal _ =>
        {| transporter := t; dbReady := true; Contact := Some model;
           readyState := 1; env := penv |}
    | Throw _ =>
        {| transporter := t; dbReady := false; Contact := None;
           readyState := 0; env := penv |}
    end
  else {| transporter := t; dbReady := false; Contact := None;
          readyState := 0; env := penv |}.

(** A template literal prints [undefined] for a missing path. *)
Definition interpolate (o : option jsstring) : jsstring :=
  match o with
  | Some s => s
  | None => lit "undefined"
  end.

(** [x || ''] on a document path. *)
Definition path_or_empty (o : option jsstring) : jsstring :=
  match o with
  | Some s => s
  | None => []
  end.

Definition submission_mail (st : state) (doc : document) : mail :=
  {| m_from := env_or (MAIL_FROM (env st)) (lit "Ops Scale <noreply@opsscale.tech>");
     m_to := env_or (MAIL_TO (env st)) (lit "opsscaletech@gmail.com");
     m_subject := lit "New inquiry from " ++ interpolate (d_name doc);
     m_replyTo := None;
     m_html := SubmissionHtml (interpolate (d_name doc))
                 (interpolate (d_email doc))
                 (path_or_empty (d_message doc)) (path_or_empty (d_ip doc)) |}.

(** [async function sendContactEmail(doc)]: calling [sendMail] on the
    [null] transporter and reading [messageId] off a missing [info] are
    [TypeError]s. *)
Definition sendContactEmail (st : state) (doc : document) : M (option info) :=
  match transporter st with
  | None => throw TypeError
  | Some t =>
      i <- transporter_sendMail t (submission_mail st doc) ;;
      match i with
      | None => throw TypeError
      | Some _ =>
          _ <- emit (ConsoleLog (lit "[mail] sendMail accepted, id:")) ;;
          ret i
      end
  end.

(** [Boolean(info && info.accepted && info.accepted.length)] *)
Definition mailed_of (i : option info) : bool :=
  match i with
  | Some inf =>
      match accepted inf with
      | Some l => negb (Nat.eqb (List.length l) 0)
      | None => false
      end
  | None => false
  end.

(** [let mailed = false; try { ... } catch (e) { ... }]: the value of
    [mailed] after the block. *)
Definition notify (st : state) (doc : document) : M bool :=
  try_catch
    (i <- sendContactEmail st doc ;;
     ret (mailed_of i))
    (fun e =>
       _ <- emit (ConsoleError (lit "[mail] sendContactEmail error:")) ;;
       ret false).

(** [catch (err) { ... }] of the handler. *)
Definition on_error (err : exn) : M response :=
  _ <- emit (ConsoleError (lit "[api] /api/contact error:")) ;;
  ret (respond 500 (JObject [(lit "success", JBool false);
                             (lit "error", JString (lit "Server error"))])).

(** [{ name, email, message, ip: req.ip, createdAt: new Date() }] *)
Definition contact_fields (req : request) (t : N) : fields :=
  let b := body_or_empty (body req) in
  {| f_name := Get b (lit "name"); f_email := Get b (lit "email");
     f_message := Get b (lit "message"); f_ip := ip req;
     f_createdAt := Some t |}.

(** [app.post('/api/contact', ...)] *)
Definition contact (st : state) (req : request) : M response :=
  try_catch
    (let b := body_or_empty (body req) in
     let name_ := Get b (lit "name") in
     let email_ := Get b (lit "email") in
     let message_ := Get b (lit "message") in
     if negb (truthy name_) || negb (truthy email_) || negb (truthy message_)
     then ret (respond 400 (JObject [(lit "success", JBool false);
                                     (lit "error", JString (lit "Missing required fields"))]))
     else
       t <- clock ;;
       match Contact st with
       | None => throw TypeError
       | Some model =>
           doc <- model_new model (contact_fields req t) ;;
           _ <- model_save model doc ;;
           mailed <- notify st doc ;;
           ret (respond 200
                  (JObject [(lit "success", JBool true); (lit "saved", JBool true);
                            (lit "id", JString (_id doc));
                            (lit "mailed", JBool mailed)]))
       end)
    on_error.

(** [app.get('/health', ...)] *)
Definition health (st : state) : response :=
  let dbReadyNow := N.eqb (readyState st) 1 in
  let mailReady := env_set (SENDGRID_SMTP_PASS (env st)) in
  respond 200 (JObject [(lit "ok", JBool true); (lit "db", JBool dbReadyNow);
                        (lit "mail", JBool mailReady)]).

End RevB.
End RevB.

(** ** Revision C: the root server.js, DB and mail unconditional *)

Module RevC.
Section RevC.

Context {NUM : JsNumber} {ENGINE : JsEngine}.
Local Open Scope handler_scope.

(** The server listens only once [mongoose.connect] has resolved, the
    transporter and the model are built at module level. *)
Record state : Type := {
  transporter : Transporter;
  Contact : Model;
  env : process_env
}.

(** [catch (err) { ... }] *)
Definition on_error (err : exn) : M response :=
  _ <- emit (ConsoleError (lit "[api/contact] error:")) ;;
  ret (respond 500 (JObject [(lit "success", JBool false);
                             (lit "error", JString (lit "Server error."))])).

(** The dash of the subject line as the file has it. *)
Definition MOJIBAKE : jsstring := [226; 8364; 8221]%N.

Definition inquiry_mail (st : state) (c : cleaned) (doc : document) : mail :=
  {| m_from := env_or (MAIL_FROM (env st)) (lit "Ops Scale <noreply@opsscale.tech>");
     m_to := env_or (MAIL_TO (env st)) (lit "brandontstephens25@gmail.com");
     m_subject := lit "Ops Scale " ++ MOJIBAKE ++ lit " New Inquiry from "
                  ++ name c;
     m_replyTo := Some (email c);
     m_html := InquiryHtml (name c) (email c) (message c) (Some (_id doc)) |}.

(** [app.post('/api/contact', ...)] *)
Definition contact (st : state) (req : request) : M response :=
  try_catch
    (let b := body_or_empty (body req) in
     let name_ := Get b (lit "name") in
     let email_ := Get b (lit "email") in
     let message_ := Get b (lit "message") in
     let company := Get b (lit "company") in
     if truthy company
     then ret (respond 200 (JObject [(lit "success", JBool true)]))
     else
       c <- lift (normalize req name_ email_ message_) ;;
       if invalid c
       then ret (respond 400 (JObject [(lit "success", JBool false);
                                       (lit "error", JString (lit "Invalid input."))]))
       else
         doc <- model_create (Contact st) (fields_of c) ;;
         _ <- transporter_sendMail (transporter st) (inquiry_mail st c doc) ;;
         ret (respond 200 (JObject [(lit "success", JBool true);
                                    (lit "id", JString (_id doc))])))
    on_error.

(** [app.get('/health', ...)] *)
Definition health (st : state) : response :=
  respond 200 (JObject [(lit "ok", JBool true)]).

End RevC.
End RevC.

(** ** Vocabulary of the statements *)

Section Vocabulary.

Context {NUM : JsNumber} {ENGINE : JsEngine}.

(** The submission revisions A and C go on with: the honeypot is not
    filled, the three fields normalise, and the result validates. *)
Definition accepted_submission (req : request) : option cleaned :=
  let b := body_or_empty (body req) in
  if truthy (Get b (lit "company")) then None
  else
    match normalize req (Get b (lit "name")) (Get b (lit "email"))
            (Get b (lit "message")) with
    | Normal c => if invalid c then None else Some c
    | Throw _ => None
    end.

(** The gate of revision B: the three fields are truthy as they came. *)
Definition required_present (req : request) : bool :=
  let b := body_or_empty (body req) in
  truthy (Get b (lit "name")) && truthy (Get b (lit "email"))
  && truthy (Get b (lit "message")).

(** Values free of what makes [String(...)] raise a [TypeError]: no object
    with an own [toString] at the top or as an element of nested arrays. *)
Fixpoint stringifiable (v : value) : bool :=
  match v with
  | JArray items => forallb stringifiable items
  | JObject props => negb (has_own props (lit "toString"))
  | _ => true
  end.

(** How many arrays inside one another a value holds. *)
Fixpoint nesting (v : value) : nat :=
  match v with
  | JArray items =>
      S (fold_right (fun x m => Nat.max (nesting x) m) 0 items)
  | _ => 0
  end.

(** Values [String(...)] renders with [fuel] arrays left to enter. *)
Fixpoint renders (fuel : nat) (v : value) {struct v} : bool :=
  match v with
  | JArray items =>
      match fuel with
      | O => false
      | S fuel' => forallb (renders fuel') items
      end
  | JObject props => negb (has_own props (lit "toString"))
  | _ => true
  end.

(** The two exceptions [String(...)] can raise. *)
Definition coercion_error (e : exn) : Prop := e = TypeError \/ e = RangeError.

(** [n] arrays inside one another around [v]: [[[...[v]...]]]. *)
Fixpoint nest (n : nat) (v : value) : value :=
  match n with
  | O => v
  | S n' => JArray [nest n' v]
  end.

(** The rendering of one array element by [join]. *)
Definition ElementToString (fuel : nat) (x : value) : completion jsstring :=
  match x with
  | JNull => Normal []
  | _ => ToStringWithin fuel x
  end.

Fixpoint sequence (l : list (completion jsstring))
  : completion (list jsstring) :=
  match l with
  | [] => Normal []
  | Normal s :: l' =>
      match sequence l' with
      | Normal ss => Normal (s :: ss)
      | Throw e => Throw e
      end
  | Throw e :: _ => Throw e
  end.

(** [{success: true, saved: boolean, id: string|null, mailed: boolean}] *)
Definition success_shape (v : value) (saved : bool) (id : option ObjectId)
  (mailed : bool) : Prop :=
  v = JObject [(lit "success", JBool true); (lit "saved", JBool saved);
               (lit "id", id_json id); (lit "mailed", JBool mailed)].

(** [{success: false, error: string}] *)
Definition failure_shape (v : value) : Prop :=
  exists msg, v = JObject [(lit "success", JBool false);
                           (lit "error", JString msg)].

(** [{ok: true, db: boolean, mail: boolean}] *)
Definition health_shape (v : value) (db mail : bool) : Prop :=
  v = JObject [(lit "ok", JBool true); (lit "db", JBool db);
               (lit "mail", JBool mail)].

(** A JSON request from the local host, and a payload of the three fields. *)
Definition post (payload : value) : request :=
  {| body := Some payload; x_forwarded_for := None;
     remoteAddress := Some (lit "127.0.0.1"); ip := Some (lit "127.0.0.1") |}.

Definition submission (name email message : value) : value :=
  JObject [(lit "name", name); (lit "email", email); (lit "message", message)].

(** The response bodies of the handlers that carry no data. *)
Definition ok_json : value := JObject [(lit "success", JBool true)].

Definition invalid_json : value :=
  JObject [(lit "success", JBool false);
           (lit "error", JString (lit "Invalid input."))].

Definition missing_json : value :=
  JObject [(lit "success", JBool false);
           (lit "error", JString (lit "Missing required fields"))].

Definition server_error_json : value :=
  JObject [(lit "success", JBool false);
           (lit "error", JString (lit "Server error."))].

Definition server_error_json_B : value :=
  JObject [(lit "success", JBool false);
           (lit "error", JString (lit "Server error"))].

(** The log line of the outer [catch] of revisions A and C. *)
Definition failed : event := ConsoleError (lit "[api/contact] error:").

(** What a run appends to the world. *)
Definition extend (w : world) (stored : list document) (evs : list event)
  : world :=
  {| db := db w ++ stored; now := now w; trace := trace w ++ evs |}.

(** The notification block of revision B never throws and never writes:
    it yields the flag and appends its events. *)
Definition notify_outcome (st : RevB.state) (doc : document)
  : bool * list event :=
  let failed := ConsoleError (lit "[mail] sendContactEmail error:") in
  match RevB.transporter st with
  | None => (false, [failed])
  | Some t =>
      let m := RevB.submission_mail st doc in
      match sendMail t m with
      | Normal (Some inf) =>
          (RevB.mailed_of (Some inf),
           [MailSend m; ConsoleLog (lit "[mail] sendMail accepted, id:")])
      | Normal None => (false, [MailSend m; failed])
      | Throw _ => (false, [MailSend m; failed])
      end
  end.

(** The transport accepts the message: [sendMail] resolves with an [info]
    whose [accepted] list is not empty. *)
Definition accepts (t : Transporter) (m : mail) : Prop :=
  exists inf l, sendMail t m = Normal (Some inf) /\
                accepted inf = Some l /\ l <> [].

(** Induction on values through the elements of arrays. *)
Section ValueInd.

Variable P : value -> Prop.
Hypothesis Hnull : P JNull.
Hypothesis Hbool : forall b, P (JBool b).
Hypothesis Hnumber : forall n, P (JNumber n).
Hypothesis Hstring : forall s, P (JString s).
Hypothesis Harray : forall items, Forall P items -> P (JArray items).
Hypothesis Hobject : forall props, P (JObject props).

Fixpoint value_elements_ind (v : value) : P v :=
  match v with
  | JNull => Hnull
  | JBool b => Hbool b
  | JNumber n => Hnumber n
  | JString s => Hstring s
  | JArray items =>
      Harray
        ((fix all (l : list value) : Forall P l :=
            match l with
            | [] => Forall_nil P
            | x :: l' => Forall_cons x (value_elements_ind x) (all l')
            end) items)
  | JObject props => Hobject props
  end.

End ValueInd.

End Vocabulary.

(** ** Concrete collaborators and requests for the worked runs *)

Module Fixtures.

(** The integers among the JSON numbers (below [10^21], where [String(n)]
    prints plain decimal digits). *)
Definition decimal (z : Z) : jsstring :=
  lit (NilZero.string_of_int (Z.to_int z)).

Definition IntegerNumbers : JsNumber :=
  {| number := Z;
     NumberToBoolean := fun z => negb (Z.eqb z 0);
     NumberToString := decimal |}.

(** An engine whose stack lets [String(...)] enter a thousand arrays. *)
Definition ThousandFrames : JsEngine := {| stack_budget := 1000 |}.

Section Fixtures.

#[local] Existing Instance IntegerNumbers.
#[local] Existing Instance ThousandFrames.

Definition hex_id : ObjectId := lit "64b7f0c2a1d3e4f5a6b7c8d9".

Definition cast (o : option value) : option jsstring :=
  match o with
  | Some (JString s) => Some (trim s)
  | _ => None
  end.

Definition build (existing : list document) (f : fields) : document :=
  {| _id := hex_id; d_name := cast (f_name f); d_email := cast (f_email f);
     d_message := cast (f_message f); d_ip := f_ip f; d_source := f |}.

(** A backend that takes every write, and one that rejects every write. *)
Definition mongo : Model :=
  {| construct := build; save := fun _ _ => Normal tt |}.

Definition mongo_rejecting : Model :=
  {| construct := build; save := fun _ _ => Throw StorageError |}.

(** A relay that accepts every message, and one that is down. *)
Definition smtp : Transporter :=
  {| sendMail := fun m =>
       Normal (Some {| accepted := Some [m_to m];
                       messageId := Some (lit "<1@opsscale.tech>") |}) |}.

Definition smtp_down : Transporter :=
  {| sendMail := fun _ => Throw MailError |}.

Definition full_env : process_env :=
  {| SENDGRID_SMTP_PASS := Some (lit "SG.key");
     MONGO_URI := Some (lit "mongodb://localhost/opsscale");
     MAIL_FROM := None; MAIL_TO := None |}.

(** [{name: "Ada", email: "ada@example.com", message: "hello"}] *)
Definition ada : request :=
  post (submission (JString (lit "Ada")) (JString (lit "ada@example.com"))
          (JString (lit "hello"))).

Definition ada_cleaned : cleaned :=
  {| name := lit "Ada"; email := lit "ada@example.com";
     message := lit "hello"; c_ip := Some (lit "127.0.0.1") |}.

Definition world0 : world := {| db := []; now := 0; trace := [] |}.

Definition mail_only_env : process_env :=
  {| SENDGRID_SMTP_PASS := Some (lit "SG.key"); MONGO_URI := None;
     MAIL_FROM := None; MAIL_TO := None |}.

(** Revision A started with mail and DB, with mail only and a relay that is
    down, with a relay that is down behind a working DB, and with a
    backend that rejects writes. *)
Definition A_healthy : RevA.state := RevA.boot full_env smtp (Normal tt) mongo.
Definition A_mail_down : RevA.state :=
  RevA.boot mail_only_env smtp_down (Normal tt) mongo.
Definition A_db_mail_down : RevA.state :=
  RevA.boot full_env smtp_down (Normal tt) mongo.
Definition A_db_rejecting : RevA.state :=
  RevA.boot full_env smtp (Normal tt) mongo_rejecting.

(** Revision B with both collaborators, without [MONGO_URI], and with a
    backend that rejects writes. *)
Definition B_healthy : RevB.state := RevB.boot full_env smtp (Normal tt) mongo.
Definition B_no_db : RevB.state :=
  RevB.boot mail_only_env smtp (Normal tt) mongo.
Definition B_db_rejecting : RevB.state :=
  RevB.boot full_env smtp (Normal tt) mongo_rejecting.

(** Revision C with a relay that is down. *)
Definition C_mail_down : RevC.state :=
  {| RevC.transporter := smtp_down; RevC.Contact := mongo;
     RevC.env := full_env |}.

(** The record [mongo] builds for Ada's submission. *)
Definition ada_doc : document := build [] (fields_of ada_cleaned).

(** [{email: "a@b.com", message: "spam", company: "Acme"}]: no name, the
    honeypot filled. *)
Definition bot_payload : value :=
  JObject [(lit "email", JString (lit "a@b.com"));
           (lit "message", JString (lit "spam"));
           (lit "company", JString (lit "Acme"))].

Definition bot : request := post bot_payload.

(** [{name: " ", email: "a@b.co", message: "hi"}] *)
Definition blank_name : request :=
  post (submission (JString (lit " ")) (JString (lit "a@b.co"))
          (JString (lit "hi"))).

(** [{name: {toString: 1}, email: "a@b.co", message: "hi"}] *)
Definition shadowed_toString : value :=
  JObject [(lit "toString", JNumber 1%Z)].

Definition odd_name : request :=
  post (submission shadowed_toString (JString (lit "a@b.co"))
          (JString (lit "hi"))).

(** [{name: "", email: "ada@example.com", message: "hello"}] *)
Definition no_name : request :=
  post (submission (JString []) (JString (lit "ada@example.com"))
          (JString (lit "hello"))).

Definition no_name_cleaned : cleaned :=
  {| name := []; email := lit "ada@example.com"; message := lit "hello";
     c_ip := Some (lit "127.0.0.1") |}.

(** The record revision B builds for Ada's submission at time [0]. *)
Definition ada_doc_B : document := build [] (RevB.contact_fields ada 0).

(** [{name: 42, email: "a@b.co", message: "hi"}] *)
Definition numeric_name : request :=
  post (submission (JNumber 42%Z) (JString (lit "a@b.co"))
          (JString (lit "hi"))).

End Fixtures.
End Fixtures.

(** ** Start-up checks: [checkEnv]

    The function is the same in revisions A and B. *)

Section CheckEnv.

(** The Cloudinary variables of [process.env], read only by [checkEnv]. *)
Record cloudinary_env : Type := {
  CLOUDINARY_CLOUD_NAME : option jsstring;
  CLOUDINARY_API_KEY : option jsstring;
  CLOUDINARY_API_SECRET : option jsstring
}.

(** A call of [console.warn] or [console.log] with its arguments. *)
Inductive console_line : Type :=
| Warn : list jsstring -> console_line
| Log : list jsstring -> console_line.

(** [notes.push(text)] when [process.env.X] is unset or empty. *)
Definition note_unless (o : option jsstring) (text : string)
  (notes : list jsstring) : list jsstring :=
  if env_set o then notes else notes ++ [lit text].

(** The [forEach] over the three Cloudinary keys. *)
Definition missing_keys (cenv : cloudinary_env) : list jsstring :=
  flat_map (fun kv => if env_set (snd kv) then [] else [lit (fst kv)])
    [("CLOUDINARY_CLOUD_NAME"%string, CLOUDINARY_CLOUD_NAME cenv);
     ("CLOUDINARY_API_KEY"%string, CLOUDINARY_API_KEY cenv);
     ("CLOUDINARY_API_SECRET"%string, CLOUDINARY_API_SECRET cenv)].

Definition NOTE_MAIL : string :=
  "SENDGRID_SMTP_PASS not set; email will be disabled."%string.
Definition NOTE_FROM : string := "MAIL_FROM not set; using default."%string.
Definition NOTE_TO : string := "MAIL_TO not set; using default."%string.
Definition NOTE_DB : string :=
  "MONGO_URI not set; DB features disabled."%string.

(** [function checkEnv({ hasUploadRoute })]: the lines it prints. *)
Definition checkEnv (hasUploadRoute : bool) (penv : process_env)
  (cenv : cloudinary_env) : list console_line :=
  let notes := note_unless (SENDGRID_SMTP_PASS penv) NOTE_MAIL [] in
  let missing := if hasUploadRoute then missing_keys cenv else [] in
  let notes := note_unless (MAIL_FROM penv) NOTE_FROM notes in
  let notes := note_unless (MAIL_TO penv) NOTE_TO notes in
  let notes := note_unless (MONGO_URI penv) NOTE_DB notes in
  (match missing with
   | _ :: _ =>
       Warn [lit "[env] missing required vars:"; join (lit ", ") missing]
   | [] => Log [lit "[env] required vars present"]
   end)
  :: List.map (fun n => Warn [lit "[env]"; n]) notes.

(** The notes [checkEnv] has collected when it prints. *)
Definition collected_notes (penv : process_env) : list jsstring :=
  note_unless (MONGO_URI penv) NOTE_DB
    (note_unless (MAIL_TO penv) NOTE_TO
       (note_unless (MAIL_FROM penv) NOTE_FROM
          (note_unless (SENDGRID_SMTP_PASS penv) NOTE_MAIL []))).

(** How many of a list of variables are unset or empty. *)
Definition unset_count (vars : list (option jsstring)) : nat :=
  List.length (filter (fun o => negb (env_set o)) vars).

End CheckEnv.

(** ** Vocabulary of the further statements *)

Section MoreVocabulary.

Context {NUM : JsNumber} {ENGINE : JsEngine}.

(** A string that neither starts nor ends with whitespace. *)
Definition no_lead (s : jsstring) : Prop :=
  match s with
  | c :: _ => is_space c = false
  | [] => True
  end.

Definition no_trail (s : jsstring) : Prop := no_lead (rev s).

(** The number of at-signs of a string. *)
Definition count_at (s : jsstring) : nat :=
  List.length (filter (char_eqb AT) s).

(** Whether a request added a record. *)
Definition nonempty_store (stored : list document) : bool :=
  match stored with [] => false | _ :: _ => true end.

(** A payload without any of the keys the handlers read. *)
Definition empty_payload (req : request) : Prop :=
  forall k, Get (body_or_empty (body req)) k = None.

End MoreVocabulary.

(** ** Further requests for the worked runs *)

Module MoreFixtures.
Section MoreFixtures.

Import Fixtures.
#[local] Existing Instance IntegerNumbers.
#[local] Existing Instance ThousandFrames.

(** A request without a body. *)
Definition no_body : request :=
  {| body := None; x_forwarded_for := None;
     remoteAddress := Some (lit "127.0.0.1"); ip := Some (lit "127.0.0.1") |}.


(** [{name: [[...["x"]...]], ...}] with 5000 arrays inside one another. *)
Definition deep_name : request :=
  post (submission (nest 5000 (JString (lit "x"))) (JString (lit "a@b.co"))
          (JString (lit "hi"))).

(** The name ["  Ada "] as it arrives. *)
Definition padded_name : option value := Some (JString (lit "  Ada ")).

(** Revision A started from the development defaults: nothing configured. *)
Definition bare_env : process_env :=
  {| SENDGRID_SMTP_PASS := None; MONGO_URI := None;
     MAIL_FROM := None; MAIL_TO := None |}.

Definition A_bare : RevA.state := RevA.boot bare_env smtp (Normal tt) mongo.

End MoreFixtures.
End MoreFixtures.

(** ** Regex facts *)

Section RegexFacts.

Lemma matches_nullable r : Matches r [] <-> nullable r = true.
Proof.
  split.
  - intro H. remember [] as s eqn:Es.
    induction H; simpl; try reflexivity; try discriminate.
    + apply app_eq_nil in Es as [-> ->].
      rewrite IHMatches1, IHMatches2; reflexivity.
    + rewrite IHMatches; auto.
    + rewrite IHMatches; auto using orb_true_r.
  - induction r; simpl; intro H; try discriminate.
    + constructor.
    + apply andb_true_iff in H as [H1 H2].
      change (@nil char) with (@nil char ++ []). constructor; auto.
    + apply orb_true_iff in H as [H|H]; [apply MAltL|apply MAltR]; auto.
    + constructor.
Qed.

Lemma star_cons r c s :
  Matches (Star r) (c :: s) ->
  exists s1 s2, s = s1 ++ s2 /\ Matches r (c :: s1) /\ Matches (Star r) s2.
Proof.
  intro H. remember (Star r) as r' eqn:Er. remember (c :: s) as t eqn:Et.
  induction H; try discriminate.
  injection Er as ->.
  destruct s1 as [|c1 s1].
  - simpl in Et. apply IHMatches2; auto.
  - simpl in Et. injection Et as -> <-.
    exists s1, s2. auto.
Qed.

Lemma cat_inv r1 r2 s :
  Matches (Cat r1 r2) s ->
  exists s1 s2, s = s1 ++ s2 /\ Matches r1 s1 /\ Matches r2 s2.
Proof. intro H. inversion H; subst. eauto. Qed.

Lemma alt_inv r1 r2 s : Matches (Alt r1 r2) s -> Matches r1 s \/ Matches r2 s.
Proof. intro H. inversion H; subst; auto. Qed.

Lemma class_inv p s : Matches (Class p) s -> exists c, s = [c] /\ p c = true.
Proof. intro H. inversion H; subst. eauto. Qed.

Lemma cat_cons r1 r2 c s1 s2 :
  Matches r1 (c :: s1) -> Matches r2 s2 -> Matches (Cat r1 r2) (c :: s1 ++ s2).
Proof. intros. change (c :: s1 ++ s2) with ((c :: s1) ++ s2). constructor; auto. Qed.

Lemma deriv_sound c r s : Matches (deriv c r) s -> Matches r (c :: s).
Proof.
  revert s. induction r as [| |p|r1 IH1 r2 IH2|r1 IH1 r2 IH2|r1 IH1];
    simpl; intros s H.
  - inversion H.
  - inversion H.
  - destruct (p c) eqn:E; inversion H; subst. constructor; auto.
  - destruct (nullable r1) eqn:E.
    + apply alt_inv in H as [H|H].
      * apply cat_inv in H as (s1 & s2 & -> & H1 & H2).
        apply cat_cons; auto.
      * change (c :: s) with ([] ++ c :: s). constructor; auto.
        apply matches_nullable; auto.
    + apply cat_inv in H as (s1 & s2 & -> & H1 & H2).
      apply cat_cons; auto.
  - apply alt_inv in H as [H|H]; [apply MAltL|apply MAltR]; auto.
  - apply cat_inv in H as (s1 & s2 & -> & H1 & H2).
    change (c :: s1 ++ s2) with ((c :: s1) ++ s2). constructor; auto.
Qed.

Lemma deriv_complete c r s : Matches r (c :: s) -> Matches (deriv c r) s.
Proof.
  revert s. induction r as [| |p|r1 IH1 r2 IH2|r1 IH1 r2 IH2|r1 IH1];
    simpl; intros s H.
  - inversion H.
  - inversion H.
  - apply class_inv in H as (c' & E & Hp). inversion E; subst.
    rewrite Hp. constructor.
  - apply cat_inv in H as (s1 & s2 & E & H1 & H2).
    destruct s1 as [|c1 s1]; simpl in E.
    + subst s2. apply matches_nullable in H1. rewrite H1.
      apply MAltR; auto.
    + injection E as <- ->.
      assert (Matches (Cat (deriv c r1) r2) (s1 ++ s2)) by (constructor; auto).
      destruct (nullable r1); [apply MAltL|]; auto.
  - apply alt_inv in H as [H|H]; [apply MAltL|apply MAltR]; auto.
  - apply star_cons in H as (s1 & s2 & -> & H1 & H2).
    constructor; auto.
Qed.

Lemma test_spec r s : test r s = true <-> Matches r s.
Proof.
  revert r. induction s as [|c s IH]; intro r; simpl.
  - symmetry. apply matches_nullable.
  - rewrite IH. split; [apply deriv_sound|apply deriv_complete].
Qed.

End RegexFacts.

(** ** The email pattern *)

Section EmailFacts.

Lemma star_class p s :
  Matches (Star (Class p)) s <-> Forall (fun c => p c = true) s.
Proof.
  split.
  - induction s as [|c s IH]; intro H; constructor.
    + apply star_cons in H as (s1 & s2 & _ & H1 & _).
      apply class_inv in H1 as (c' & E & Hp). inversion E; subst; exact Hp.
    + apply star_cons in H as (s1 & s2 & -> & H1 & H2).
      apply class_inv in H1 as (c' & E & Hp). inversion E; subst.
      apply IH, H2.
  - induction 1 as [|c s Hc _ IH].
    + constructor.
    + change (c :: s) with ([c] ++ s). constructor; auto. now constructor.
Qed.

Lemma plus_class p s :
  Matches (Plus (Class p)) s <->
  s <> [] /\ Forall (fun c => p c = true) s.
Proof.
  unfold Plus. split.
  - intro H. apply cat_inv in H as (s1 & s2 & -> & H1 & H2).
    apply class_inv in H1 as (c & -> & Hp). apply star_class in H2.
    split; [discriminate | constructor; auto].
  - intros [Hne H]. destruct H as [|c s Hc Hs]; [contradiction|].
    change (c :: s) with ([c] ++ s). constructor.
    + now constructor.
    + now apply star_class.
Qed.

Lemma chr_inv c s : Matches (Chr c) s -> s = [c].
Proof.
  intro H. apply class_inv in H as (c' & -> & E).
  unfold char_eqb in E. apply N.eqb_eq in E. now subst.
Qed.

Lemma chr_intro c : Matches (Chr c) [c].
Proof. constructor. unfold char_eqb. apply N.eqb_refl. Qed.

Lemma emailOk_iff_shape s : emailOk s = true <-> email_shape s.
Proof.
  unfold emailOk, email_pattern, email_shape, nonspace_noat.
  rewrite test_spec. split.
  - intro H.
    apply cat_inv in H as (x & r1 & -> & Hx & H).
    apply cat_inv in H as (a & r2 & -> & Ha & H).
    apply cat_inv in H as (y & r3 & -> & Hy & H).
    apply cat_inv in H as (d & z & -> & Hd & Hz).
    apply chr_inv in Ha, Hd. subst a d.
    apply plus_class in Hx, Hy, Hz.
    exists x, y, z. simpl. auto.
  - intros (x & y & z & -> & Hx & Hy & Hz).
    apply plus_class in Hx, Hy, Hz.
    constructor; auto.
    change (AT :: y ++ DOT :: z) with ([AT] ++ y ++ [DOT] ++ z).
    repeat (constructor; auto using chr_intro).
Qed.

Lemma not_space_at_nonspace c : not_space_at c = true -> is_space c = false.
Proof.
  unfold not_space_at. intro H. apply negb_true_iff, orb_false_iff in H.
  tauto.
Qed.

Lemma email_shape_spec_shape s : email_shape s -> spec_email_shape s.
Proof.
  intros (x & y & z & E & (Nx & Hx) & (Ny & Hy) & (Nz & Hz)).
  exists x, y, z. unfold nonspace.
  repeat split; auto;
    eapply Forall_impl; eauto; intros; now apply not_space_at_nonspace.
Qed.

(** C4 (as amended): the email predicate accepts exactly the strings
    [x @ y . z] whose three parts are non-empty and hold neither whitespace
    nor an at-sign; every accepted string is of the shape
    non-whitespace [@] non-whitespace [.] non-whitespace; ["foo"],
    ["foo@bar"] and ["@bar.com"] fail and ["a@b.co"] passes. *)
Theorem emailOk_accepts_exactly_email_shape :
  (forall s, emailOk s = true <-> email_shape s) /\
  (forall s, emailOk s = true -> spec_email_shape s) /\
  emailOk (lit "foo") = false /\
  emailOk (lit "foo@bar") = false /\
  emailOk (lit "@bar.com") = false /\
  emailOk (lit "a@b.co") = true.
Proof.
  split; [exact emailOk_iff_shape|].
  split; [intros s H; now apply email_shape_spec_shape, emailOk_iff_shape|].
  repeat split; reflexivity.
Qed.

(** C4 (as stated) fails: ["a@b@c.d"] is non-whitespace [@] non-whitespace
    [.] non-whitespace (with [b@c] in the middle), and the predicate
    rejects it. *)
Lemma emailOk_rejects_second_at :
  spec_email_shape (lit "a@b@c.d") /\ emailOk (lit "a@b@c.d") = false.
Proof.
  split; [|reflexivity].
  exists (lit "a"), (lit "b@c"), (lit "d").
  split; [reflexivity|].
  unfold nonspace.
  repeat split; try discriminate; repeat constructor.
Qed.

End EmailFacts.

(** ** Coercion and normalisation *)

Section NormalizationFacts.

Context {NUM : JsNumber} {ENGINE : JsEngine}.

Lemma clean_field_falsy o : truthy o = false -> clean_field o = Normal [].
Proof.
  unfold clean_field, or_empty. destruct o as [v|]; simpl; intro H.
  - now rewrite H.
  - reflexivity.
Qed.

Lemma clean_field_truthy v :
  ToBoolean v = true ->
  clean_field (Some v) =
  match ToString v with Normal s => Normal (trim s) | Throw e => Throw e end.
Proof. unfold clean_field, or_empty. now intros ->. Qed.

Lemma ToStringWithin_array fuel items :
  ToStringWithin (S fuel) (JArray items) =
  match sequence (List.map (ElementToString fuel) items) with
  | Normal ss => Normal (join (lit ",") ss)
  | Throw e => Throw e
  end.
Proof.
  cbn [ToStringWithin].
  match goal with
  | |- match ?f items with _ => _ end = _ =>
      assert (E : forall l,
                 f l = sequence (List.map (ElementToString fuel) l))
  end.
  { induction l as [|x l IH]; [reflexivity|].
    cbn [List.map sequence]. rewrite <- IH.
    destruct x; reflexivity. }
  now rewrite E.
Qed.

Lemma ElementToString_cases fuel x :
  ElementToString fuel x = ToStringWithin fuel x \/ x = JNull.
Proof. destruct x; auto. Qed.

(** [String(v)] either renders or raises a [TypeError] or a [RangeError],
    and [renders] tells which. *)
Lemma ToStringWithin_cases v :
  forall fuel,
    (renders fuel v = true /\ exists s, ToStringWithin fuel v = Normal s) \/
    (renders fuel v = false /\
     exists e, ToStringWithin fuel v = Throw e /\ coercion_error e).
Proof.
  unfold coercion_error.
  induction v as [|b|n|s|items IH|props] using value_elements_ind;
    intro fuel.
  - left. simpl. eauto 10.
  - left. destruct b; simpl; eauto 10.
  - left. simpl. eauto 10.
  - left. simpl. eauto 10.
  - destruct fuel as [|fuel]; [right; simpl; eauto 10|].
    rewrite ToStringWithin_array. cbn [renders].
    induction IH as [|x l Hx _ IHl]; [left; simpl; eauto 10|].
    cbn [forallb List.map sequence].
    assert (Ex : (renders fuel x = true /\
                  exists s, ElementToString fuel x = Normal s) \/
                 (renders fuel x = false /\
                  exists e, ElementToString fuel x = Throw e /\
                            (e = TypeError \/ e = RangeError))).
    { destruct (ElementToString_cases fuel x) as [-> | ->]; [apply Hx|].
      left. simpl. eauto 10. }
    destruct Ex as [[-> [s ->]] | [-> [e [-> He]]]]; [|right; eauto].
    simpl. destruct IHl as [[-> [s' E]] | [-> [e [E He]]]].
    + left. split; auto.
      destruct (sequence (List.map (ElementToString fuel) l));
        [eauto 10|discriminate].
    + right. split; auto.
      destruct (sequence (List.map (ElementToString fuel) l)) as [ss|e'];
        [discriminate|].
      injection E as ->. eauto 10.
  - cbn [renders ToStringWithin].
    destruct (has_own props (lit "toString")); simpl; eauto 10.
Qed.

Lemma ToString_renders v :
  renders stack_budget v = true -> exists s, ToString v = Normal s.
Proof.
  intro H. unfold ToString.
  destruct (ToStringWithin_cases v stack_budget) as [[_ E] | [E _]]; auto.
  rewrite H in E. discriminate.
Qed.

Lemma ToString_raises v :
  renders stack_budget v = false ->
  exists e, ToString v = Throw e /\ coercion_error e.
Proof.
  intro H. unfold ToString.
  destruct (ToStringWithin_cases v stack_budget) as [[E _] | [_ E]]; auto.
  rewrite H in E. discriminate.
Qed.

Lemma forallb_both (f g : value -> bool) l :
  forallb (fun x => f x && g x) l = forallb f l && forallb g l.
Proof.
  induction l as [|x l IH]; [reflexivity|]. simpl. rewrite IH.
  destruct (f x), (g x), (forallb f l); reflexivity.
Qed.

Lemma max_leb a b n : (Nat.max a b <=? n) = (a <=? n) && (b <=? n).
Proof.
  destruct (a <=? n) eqn:A, (b <=? n) eqn:B; simpl;
    rewrite ?Nat.leb_le, ?Nat.leb_gt in *; lia.
Qed.

Lemma nesting_bound fuel l :
  (fold_right (fun x m => Nat.max (nesting x) m) 0 l <=? fuel) =
  forallb (fun x => nesting x <=? fuel) l.
Proof.
  induction l as [|x l IH]; [reflexivity|]. simpl fold_right.
  rewrite max_leb, IH. reflexivity.
Qed.

(** [String(...)] renders a value exactly when no object with an own
    [toString] is reached and the arrays nest no deeper than the stack
    allows. *)
Lemma renders_spec v :
  forall fuel, renders fuel v = stringifiable v && (nesting v <=? fuel).
Proof.
  induction v as [|b|n|s|items IH|props] using value_elements_ind;
    intro fuel; try reflexivity.
  - cbn [renders stringifiable nesting].
    destruct fuel as [|fuel]; [now rewrite andb_false_r|].
    change (S ?m <=? S fuel) with (m <=? fuel).
    rewrite nesting_bound, <- forallb_both.
    induction IH as [|x l Hx _ IHl]; [reflexivity|].
    cbn [forallb]. now rewrite Hx, IHl.
  - cbn [renders stringifiable nesting]. now rewrite andb_true_r.
Qed.

Lemma nest_overflows n v :
  forall fuel, fuel < n -> ToStringWithin fuel (nest n v) = Throw RangeError.
Proof.
  induction n as [|n IH]; intros fuel H; [lia|].
  destruct fuel as [|fuel]; [reflexivity|].
  cbn [nest]. rewrite ToStringWithin_array. cbn [List.map sequence].
  assert (E : ElementToString fuel (nest n v) = Throw RangeError).
  { destruct n as [|n]; [lia|]. cbn [nest ElementToString].
    change (JArray [nest n v]) with (nest (S n) v). apply IH. lia. }
  now rewrite E.
Qed.

Lemma clean_field_number n :
  NumberToBoolean n = true ->
  clean_field (Some (JNumber n)) = Normal (trim (NumberToString n)).
Proof. intro H. unfold clean_field, or_empty. simpl. now rewrite H. Qed.

End NormalizationFacts.

(** ** Runs of the contact handlers *)

Section HandlerFacts.

Context {NUM : JsNumber} {ENGINE : JsEngine}.

Lemma accepted_submission_inv req c :
  accepted_submission req = Some c ->
  truthy (Get (body_or_empty (body req)) (lit "company")) = false /\
  normalize req (Get (body_or_empty (body req)) (lit "name"))
    (Get (body_or_empty (body req)) (lit "email"))
    (Get (body_or_empty (body req)) (lit "message")) = Normal c /\
  invalid c = false.
Proof.
  unfold accepted_submission. cbv zeta.
  destruct (truthy _); [discriminate|].
  destruct (normalize _ _ _ _) as [c'|e]; [|discriminate].
  destruct (invalid c') eqn:E; [discriminate|].
  intro H. injection H as <-. auto.
Qed.

(** Enter a handler up to its first gates. *)
Ltac open_handler :=
  unfold RevA.contact, RevC.contact, RevA.on_error, RevC.on_error,
    try_catch, bind, lift, ret, emit;
  cbv zeta.

Lemma RevA_honeypot st req w :
  truthy (Get (body_or_empty (body req)) (lit "company")) = true ->
  RevA.contact st req w = (Normal (respond 200 ok_json), w).
Proof. intro H. open_handler. now rewrite H. Qed.

Lemma RevC_honeypot st req w :
  truthy (Get (body_or_empty (body req)) (lit "company")) = true ->
  RevC.contact st req w = (Normal (respond 200 ok_json), w).
Proof. intro H. open_handler. now rewrite H. Qed.

Lemma extend_nil w : extend w [] [] = w.
Proof. destruct w. unfold extend. simpl. now rewrite !app_nil_r. Qed.

Lemma RevA_invalid st req w c :
  truthy (Get (body_or_empty (body req)) (lit "company")) = false ->
  normalize req (Get (body_or_empty (body req)) (lit "name"))
    (Get (body_or_empty (body req)) (lit "email"))
    (Get (body_or_empty (body req)) (lit "message")) = Normal c ->
  invalid c = true ->
  RevA.contact st req w = (Normal (respond 400 invalid_json), w).
Proof. intros Hc Hn Hv. open_handler. now rewrite Hc, Hn, Hv. Qed.

Lemma RevA_normalize_throws st req w e :
  truthy (Get (body_or_empty (body req)) (lit "company")) = false ->
  normalize req (Get (body_or_empty (body req)) (lit "name"))
    (Get (body_or_empty (body req)) (lit "email"))
    (Get (body_or_empty (body req)) (lit "message")) = Throw e ->
  RevA.contact st req w =
  (Normal (respond 500 server_error_json), extend w [] [failed]).
Proof.
  intros Hc Hn. open_handler. rewrite Hc, Hn. unfold extend.
  now rewrite app_nil_r.
Qed.

Lemma RevC_normalize_throws st req w e :
  truthy (Get (body_or_empty (body req)) (lit "company")) = false ->
  normalize req (Get (body_or_empty (body req)) (lit "name"))
    (Get (body_or_empty (body req)) (lit "email"))
    (Get (body_or_empty (body req)) (lit "message")) = Throw e ->
  RevC.contact st req w =
  (Normal (respond 500 server_error_json), extend w [] [failed]).
Proof.
  intros Hc Hn. open_handler. rewrite Hc, Hn. unfold extend.
  now rewrite app_nil_r.
Qed.

Lemma extend_extend w a b c d :
  extend (extend w a b) c d = extend w (a ++ c) (b ++ d).
Proof. unfold extend. simpl. now rewrite !app_assoc. Qed.

Lemma emit_run e w : emit e w = (Normal tt, extend w [] [e]).
Proof. unfold emit, extend. now rewrite app_nil_r. Qed.

Lemma model_create_run m f w :
  model_create m f w =
  let doc := construct m (db w) f in
  match save m (db w) doc with
  | Normal _ => (Normal doc, extend w [doc] [DbWrite doc])
  | Throw e => (Throw e, extend w [] [DbWrite doc])
  end.
Proof.
  unfold model_create, model_new, model_save, bind, ret, extend. cbv zeta.
  destruct (save m (db w) _); [reflexivity|]. now rewrite app_nil_r.
Qed.

Lemma sendMail_run t m w :
  transporter_sendMail t m w = (sendMail t m, extend w [] [MailSend m]).
Proof. unfold transporter_sendMail, extend. now rewrite app_nil_r. Qed.

(** *** Revision A *)

Lemma RevA_on_error e w :
  RevA.on_error e w =
  (Normal (respond 500 server_error_json),
   extend w [] [ConsoleError (lit "[api/contact] error:")]).
Proof. unfold RevA.on_error, bind, ret. now rewrite emit_run. Qed.

Lemma RevA_save_off st c w :
  RevA.storage st = None ->
  RevA.save_if_available st c w = (Normal (false, None), w).
Proof. unfold RevA.save_if_available. now intros ->. Qed.

Lemma RevA_save_on st c w model :
  RevA.storage st = Some model ->
  RevA.save_if_available st c w =
  let doc := construct model (db w) (fields_of c) in
  match save model (db w) doc with
  | Normal _ => (Normal (true, Some (_id doc)), extend w [doc] [DbWrite doc])
  | Throw e => (Throw e, extend w [] [DbWrite doc])
  end.
Proof.
  unfold RevA.save_if_available. intros ->. unfold bind.
  rewrite model_create_run. cbv zeta.
  now destruct (save model (db w) _).
Qed.

Lemma RevA_email_off st c id w :
  RevA.transporter st = None ->
  RevA.email_if_available st c id w = (Normal tt, w).
Proof. unfold RevA.email_if_available. now intros ->. Qed.

Lemma RevA_email_on st c id w t :
  RevA.transporter st = Some t ->
  RevA.email_if_available st c id w =
  (match sendMail t (RevA.inquiry_mail st c id) with
   | Normal _ => Normal tt
   | Throw e => Throw e
   end, extend w [] [MailSend (RevA.inquiry_mail st c id)]).
Proof.
  unfold RevA.email_if_available. intros ->. unfold bind.
  rewrite sendMail_run. now destruct (sendMail t _).
Qed.

Lemma RevA_accepted st req c w :
  accepted_submission req = Some c ->
  RevA.contact st req w =
  try_catch
    (bind (RevA.save_if_available st c) (fun stored =>
     bind (RevA.email_if_available st c (snd stored)) (fun _ =>
     ret (respond 200 (success_json (fst stored) (snd stored)
                         (is_some (RevA.transporter st)))))))
    RevA.on_error w.
Proof.
  intro H. apply accepted_submission_inv in H as (Hc & Hn & Hv).
  unfold RevA.contact, try_catch at 1. cbv zeta. rewrite Hc.
  unfold bind at 1, lift. rewrite Hn, Hv. reflexivity.
Qed.

(** *** Revision C *)

Lemma RevC_on_error e w :
  RevC.on_error e w =
  (Normal (respond 500 server_error_json),
   extend w [] [ConsoleError (lit "[api/contact] error:")]).
Proof. unfold RevC.on_error, bind, ret. now rewrite emit_run. Qed.

Lemma RevC_accepted st req c w :
  accepted_submission req = Some c ->
  RevC.contact st req w =
  try_catch
    (bind (model_create (RevC.Contact st) (fields_of c)) (fun doc =>
     bind (transporter_sendMail (RevC.transporter st)
             (RevC.inquiry_mail st c doc)) (fun _ =>
     ret (respond 200 (JObject [(lit "success", JBool true);
                                (lit "id", JString (_id doc))])))))
    RevC.on_error w.
Proof.
  intro H. apply accepted_submission_inv in H as (Hc & Hn & Hv).
  unfold RevC.contact, try_catch at 1. cbv zeta. rewrite Hc.
  unfold bind at 1, lift. rewrite Hn, Hv. reflexivity.
Qed.

(** *** Revision B *)

Lemma RevB_on_error e w :
  RevB.on_error e w =
  (Normal (respond 500 server_error_json_B),
   extend w [] [ConsoleError (lit "[api] /api/contact error:")]).
Proof. unfold RevB.on_error, bind, ret. now rewrite emit_run. Qed.

Lemma required_present_inv req :
  required_present req = true ->
  negb (truthy (Get (body_or_empty (body req)) (lit "name")))
  || negb (truthy (Get (body_or_empty (body req)) (lit "email")))
  || negb (truthy (Get (body_or_empty (body req)) (lit "message"))) = false.
Proof.
  unfold required_present. cbv zeta. intro H.
  apply andb_true_iff in H as [H H3]. apply andb_true_iff in H as [H1 H2].
  now rewrite H1, H2, H3.
Qed.

Lemma RevB_missing st req w :
  required_present req = false ->
  RevB.contact st req w = (Normal (respond 400 missing_json), w).
Proof.
  unfold required_present. cbv zeta. intro H.
  unfold RevB.contact, try_catch. cbv zeta.
  destruct (truthy (Get _ (lit "name"))), (truthy (Get _ (lit "email"))),
    (truthy (Get _ (lit "message"))); try discriminate; reflexivity.
Qed.

Lemma RevB_no_model st req w :
  required_present req = true -> RevB.Contact st = None ->
  RevB.contact st req w =
  (Normal (respond 500 server_error_json_B),
   extend w [] [ConsoleError (lit "[api] /api/contact error:")]).
Proof.
  intros H Hm. apply required_present_inv in H.
  unfold RevB.contact, try_catch. cbv zeta. rewrite H, Hm.
  unfold bind, clock, throw. now rewrite RevB_on_error.
Qed.

Lemma RevB_notify_run st doc w :
  RevB.notify st doc w =
  (Normal (fst (notify_outcome st doc)),
   extend w [] (snd (notify_outcome st doc))).
Proof.
  unfold RevB.notify, notify_outcome, RevB.sendContactEmail, try_catch, bind,
    throw, ret. cbv zeta.
  destruct (RevB.transporter st) as [t|]; [|now rewrite emit_run].
  rewrite sendMail_run.
  destruct (sendMail t _) as [[inf|]|e]; rewrite emit_run; cbn [fst snd];
    now rewrite extend_extend.
Qed.

Lemma RevB_present st req w model :
  required_present req = true -> RevB.Contact st = Some model ->
  RevB.contact st req w =
  let doc := construct model (db w) (RevB.contact_fields req (now w)) in
  match save model (db w) doc with
  | Normal _ =>
      (Normal (respond 200
                 (success_json true (Some (_id doc))
                    (fst (notify_outcome st doc)))),
       extend w [doc] (DbWrite doc :: snd (notify_outcome st doc)))
  | Throw _ =>
      (Normal (respond 500 server_error_json_B),
       extend w [] [DbWrite doc;
                    ConsoleError (lit "[api] /api/contact error:")])
  end.
Proof.
  intros H Hm. apply required_present_inv in H.
  unfold RevB.contact, try_catch. cbv zeta. rewrite H, Hm.
  unfold bind, clock, model_new, model_save, ret.
  destruct (save model (db w) _) as [u|e].
  - rewrite RevB_notify_run. unfold extend. cbn [db now trace].
    now rewrite app_nil_r, <- app_assoc.
  - rewrite RevB_on_error. unfold extend. cbn [db now trace].
    now rewrite !app_nil_r, <- app_assoc.
Qed.

(** *** Closed forms of the accepted runs *)

Lemma RevA_pipeline st req c w :
  accepted_submission req = Some c ->
  RevA.contact st req w =
  match RevA.storage st with
  | None =>
      match RevA.transporter st with
      | None => (Normal (respond 200 (success_json false None false)), w)
      | Some t =>
          let m := RevA.inquiry_mail st c None in
          match sendMail t m with
          | Normal _ =>
              (Normal (respond 200 (success_json false None true)),
               extend w [] [MailSend m])
          | Throw _ =>
              (Normal (respond 500 server_error_json),
               extend w [] [MailSend m; failed])
          end
      end
  | Some model =>
      let doc := construct model (db w) (fields_of c) in
      match save model (db w) doc with
      | Throw _ =>
          (Normal (respond 500 server_error_json),
           extend w [] [DbWrite doc; failed])
      | Normal _ =>
          match RevA.transporter st with
          | None =>
              (Normal (respond 200 (success_json true (Some (_id doc)) false)),
               extend w [doc] [DbWrite doc])
          | Some t =>
              let m := RevA.inquiry_mail st c (Some (_id doc)) in
              match sendMail t m with
              | Normal _ =>
                  (Normal (respond 200
                             (success_json true (Some (_id doc)) true)),
                   extend w [doc] [DbWrite doc; MailSend m])
              | Throw _ =>
                  (Normal (respond 500 server_error_json),
                   extend w [doc] [DbWrite doc; MailSend m; failed])
              end
          end
      end
  end.
Proof.
  intro H. rewrite (@RevA_accepted st req c w H). unfold try_catch, bind at 1.
  destruct (RevA.storage st) as [model|] eqn:Es.
  - rewrite (@RevA_save_on st c w model Es). cbv zeta.
    destruct (save model (db w) _) as [u|e].
    + unfold bind. cbn [fst snd].
      destruct (RevA.transporter st) as [t|] eqn:Et.
      * rewrite (@RevA_email_on st c _ _ t Et).
        destruct (sendMail t _) as [i|e]; unfold ret.
        -- now rewrite extend_extend.
        -- now rewrite RevA_on_error, !extend_extend.
      * now rewrite (@RevA_email_off st c _ _ Et).
    + now rewrite RevA_on_error, extend_extend.
  - rewrite (@RevA_save_off st c w Es). unfold bind. cbn [fst snd].
    destruct (RevA.transporter st) as [t|] eqn:Et.
    + rewrite (@RevA_email_on st c _ _ t Et).
      destruct (sendMail t _) as [i|e]; unfold ret; [reflexivity|].
      now rewrite RevA_on_error, extend_extend.
    + now rewrite (@RevA_email_off st c _ _ Et).
Qed.

Lemma RevC_pipeline st req c w :
  accepted_submission req = Some c ->
  RevC.contact st req w =
  let doc := construct (RevC.Contact st) (db w) (fields_of c) in
  let m := RevC.inquiry_mail st c doc in
  match save (RevC.Contact st) (db w) doc with
  | Throw _ =>
      (Normal (respond 500 server_error_json),
       extend w [] [DbWrite doc; failed])
  | Normal _ =>
      match sendMail (RevC.transporter st) m with
      | Normal _ =>
          (Normal (respond 200 (JObject [(lit "success", JBool true);
                                         (lit "id", JString (_id doc))])),
           extend w [doc] [DbWrite doc; MailSend m])
      | Throw _ =>
          (Normal (respond 500 server_error_json),
           extend w [doc] [DbWrite doc; MailSend m; failed])
      end
  end.
Proof.
  intro H. rewrite (@RevC_accepted st req c w H). unfold try_catch, bind at 1.
  rewrite model_create_run. cbv zeta.
  destruct (save _ (db w) _) as [u|e].
  - unfold bind. rewrite sendMail_run.
    destruct (sendMail _ _) as [i|e]; unfold ret.
    + now rewrite extend_extend.
    + now rewrite RevC_on_error, !extend_extend.
  - now rewrite RevC_on_error, extend_extend.
Qed.

End HandlerFacts.

(** ** The claims about the contact handlers *)

Section Claims.

Context {NUM : JsNumber} {ENGINE : JsEngine}.

(** C1 (the divergence): in revision A a failing delivery fails the
    request.  For a valid submission with the mail transport configured
    (storage off), when [sendMail] rejects, the handler answers 500 with
    [{success: false, error: 'Server error.'}] instead of the success
    response with a notification flag. *)
Theorem RevA_mail_failure_is_server_error st req c w t e :
  accepted_submission req = Some c ->
  RevA.storage st = None ->
  RevA.transporter st = Some t ->
  sendMail t (RevA.inquiry_mail st c None) = Throw e ->
  RevA.contact st req w =
  (Normal (respond 500 server_error_json),
   extend w [] [MailSend (RevA.inquiry_mail st c None); failed]).
Proof.
  intros H Hs Ht Hm. rewrite RevA_pipeline with (c := c) by exact H. rewrite Hs, Ht.
  cbv zeta. now rewrite Hm.
Qed.

(** Revision B does what C1 asks: once the record is saved, a delivery
    that fails in any way leaves the success response, with
    [mailed: false]. *)
Lemma RevB_mail_failure_is_soft st req w model :
  required_present req = true ->
  RevB.Contact st = Some model ->
  let doc := construct model (db w) (RevB.contact_fields req (now w)) in
  save model (db w) doc = Normal tt ->
  (forall t inf, RevB.transporter st = Some t ->
                 sendMail t (RevB.submission_mail st doc) <> Normal (Some inf)) ->
  exists evs,
    RevB.contact st req w =
    (Normal (respond 200 (success_json true (Some (_id doc)) false)),
     extend w [doc] (DbWrite doc :: evs)).
Proof.
  intros H Hm doc Hs Hfail.
  rewrite RevB_present with (model := model) by assumption. cbv zeta. fold doc.
  rewrite Hs. exists (snd (notify_outcome st doc)).
  replace (fst (notify_outcome st doc)) with false; [reflexivity|].
  unfold notify_outcome. cbv zeta.
  destruct (RevB.transporter st) as [t|] eqn:Et; [|reflexivity].
  destruct (sendMail t _) as [[inf|]|e] eqn:Em; try reflexivity.
  exfalso. exact (Hfail t inf eq_refl Em).
Qed.

(** C5 (the divergence): in revision B a missing storage collaborator is a
    server error.  With [Contact] left [null] (no [MONGO_URI], or a failed
    connection), every submission that passes the gate is answered 500
    with [{success: false, error: 'Server error'}], before any collaborator
    is called. *)
Theorem RevB_storage_absent_is_server_error st req w :
  required_present req = true ->
  RevB.Contact st = None ->
  RevB.contact st req w =
  (Normal (respond 500 server_error_json_B),
   extend w [] [ConsoleError (lit "[api] /api/contact error:")]).
Proof. apply RevB_no_model. Qed.

(** Revision A does what C5 asks: with storage off the response is a
    success with [saved: false] and [id: null], unless the delivery
    throws. *)
Lemma RevA_storage_absent_degrades st req c w :
  accepted_submission req = Some c ->
  RevA.storage st = None ->
  (forall t, RevA.transporter st = Some t ->
             exists i, sendMail t (RevA.inquiry_mail st c None) = Normal i) ->
  exists evs,
    RevA.contact st req w =
    (Normal (respond 200 (success_json false None
                            (is_some (RevA.transporter st)))),
     extend w [] evs).
Proof.
  intros H Hs Hm. rewrite RevA_pipeline with (c := c) by exact H. rewrite Hs.
  destruct (RevA.transporter st) as [t|].
  - destruct (Hm t eq_refl) as [i Hi]. cbv zeta. rewrite Hi.
    eexists. reflexivity.
  - exists []. now rewrite extend_nil.
Qed.

(** C7: in revision A, for a valid submission with storage configured, a
    write that the backend rejects (or that throws) is answered 500 with
    [{success: false, error: 'Server error.'}]: no record is added, no mail
    is attempted, and the response is not a success with [saved: false]. *)
Theorem RevA_write_failure_is_server_error st req c w model e :
  accepted_submission req = Some c ->
  RevA.storage st = Some model ->
  save model (db w) (construct model (db w) (fields_of c)) = Throw e ->
  RevA.contact st req w =
  (Normal (respond 500 server_error_json),
   extend w [] [DbWrite (construct model (db w) (fields_of c)); failed])
  /\ failure_shape server_error_json.
Proof.
  intros H Hs Hw. split; [|unfold failure_shape, server_error_json; eauto].
  rewrite RevA_pipeline with (c := c) by exact H. rewrite Hs.
  cbv zeta. now rewrite Hw.
Qed.

(** Revisions B and C answer a failed write the same way. *)
Lemma RevB_write_failure_is_server_error st req w model e :
  required_present req = true ->
  RevB.Contact st = Some model ->
  save model (db w)
    (construct model (db w) (RevB.contact_fields req (now w))) = Throw e ->
  RevB.contact st req w =
  (Normal (respond 500 server_error_json_B),
   extend w []
     [DbWrite (construct model (db w) (RevB.contact_fields req (now w)));
      ConsoleError (lit "[api] /api/contact error:")]).
Proof.
  intros H Hm Hw. rewrite RevB_present with (model := model) by assumption.
  cbv zeta. now rewrite Hw.
Qed.

Lemma RevC_write_failure_is_server_error st req c w e :
  accepted_submission req = Some c ->
  save (RevC.Contact st) (db w)
    (construct (RevC.Contact st) (db w) (fields_of c)) = Throw e ->
  RevC.contact st req w =
  (Normal (respond 500 server_error_json),
   extend w []
     [DbWrite (construct (RevC.Contact st) (db w) (fields_of c)); failed]).
Proof.
  intros H Hw. rewrite RevC_pipeline with (c := c) by exact H.
  cbv zeta. now rewrite Hw.
Qed.

(** C10: a 500 does not mean that nothing was stored.  In revisions A and
    C, when the write of a valid submission succeeds and the awaited
    [sendMail] then throws, the outer [catch] answers 500 while the record
    created by the write stays in the store: nothing rolls it back. *)
Theorem persisted_record_survives_mail_failure :
  (forall st req c w model t e,
      accepted_submission req = Some c ->
      RevA.storage st = Some model ->
      RevA.transporter st = Some t ->
      let doc := construct model (db w) (fields_of c) in
      save model (db w) doc = Normal tt ->
      sendMail t (RevA.inquiry_mail st c (Some (_id doc))) = Throw e ->
      exists w',
        RevA.contact st req w = (Normal (respond 500 server_error_json), w')
        /\ db w' = db w ++ [doc] /\ In doc (db w')) /\
  (forall st req c w e,
      accepted_submission req = Some c ->
      let doc := construct (RevC.Contact st) (db w) (fields_of c) in
      save (RevC.Contact st) (db w) doc = Normal tt ->
      sendMail (RevC.transporter st) (RevC.inquiry_mail st c doc) = Throw e ->
      exists w',
        RevC.contact st req w = (Normal (respond 500 server_error_json), w')
        /\ db w' = db w ++ [doc] /\ In doc (db w')).
Proof.
  split.
  - intros st req c w model t e H Hs Ht doc Hw Hm.
    rewrite RevA_pipeline with (c := c) by exact H. rewrite Hs, Ht.
    cbv zeta. fold doc. rewrite Hw, Hm.
    eexists. split; [reflexivity|]. simpl.
    split; [reflexivity|]. apply in_or_app. right. now left.
  - intros st req c w e H doc Hw Hm.
    rewrite RevC_pipeline with (c := c) by exact H.
    cbv zeta. fold doc. rewrite Hw, Hm.
    eexists. split; [reflexivity|]. simpl.
    split; [reflexivity|]. apply in_or_app. right. now left.
Qed.

Lemma accepts_resolves t m : accepts t m -> exists i, sendMail t m = Normal i.
Proof. intros (inf & l & E & _). eauto. Qed.

Lemma accepts_mailed st doc t :
  RevB.transporter st = Some t ->
  accepts t (RevB.submission_mail st doc) ->
  notify_outcome st doc =
  (true, [MailSend (RevB.submission_mail st doc);
          ConsoleLog (lit "[mail] sendMail accepted, id:")]).
Proof.
  intros Ht (inf & l & E & Ha & Hl). unfold notify_outcome. cbv zeta.
  rewrite Ht, E. unfold RevB.mailed_of. rewrite Ha.
  destruct l; [contradiction|reflexivity].
Qed.

(** C6: for a valid submission with storage configured and the write
    succeeding, every success response has [saved: true] and the
    identifier of the new record; with no transporter the response is that
    success with [mailed: false] (revision A), and when a transporter is
    configured and accepts the message it is the success with
    [mailed: true] (revisions A and B).  The body is
    [{success: true, saved, id, mailed}]. *)
Theorem stored_submission_response :
  (forall st req c w model,
      accepted_submission req = Some c ->
      RevA.storage st = Some model ->
      let doc := construct model (db w) (fields_of c) in
      save model (db w) doc = Normal tt ->
      (forall r w',
          RevA.contact st req w = (Normal r, w') -> status r = 200%N ->
          success_shape (json r) true (Some (_id doc))
            (is_some (RevA.transporter st))) /\
      (RevA.transporter st = None ->
       RevA.contact st req w =
       (Normal (respond 200 (success_json true (Some (_id doc)) false)),
        extend w [doc] [DbWrite doc])) /\
      (forall t,
          RevA.transporter st = Some t ->
          accepts t (RevA.inquiry_mail st c (Some (_id doc))) ->
          RevA.contact st req w =
          (Normal (respond 200 (success_json true (Some (_id doc)) true)),
           extend w [doc]
             [DbWrite doc;
              MailSend (RevA.inquiry_mail st c (Some (_id doc)))]))) /\
  (forall st req w model,
      required_present req = true ->
      RevB.Contact st = Some model ->
      let doc := construct model (db w) (RevB.contact_fields req (now w)) in
      save model (db w) doc = Normal tt ->
      (exists mailed evs,
          RevB.contact st req w =
          (Normal (respond 200 (success_json true (Some (_id doc)) mailed)),
           extend w [doc] (DbWrite doc :: evs))) /\
      (forall t,
          RevB.transporter st = Some t ->
          accepts t (RevB.submission_mail st doc) ->
          RevB.contact st req w =
          (Normal (respond 200 (success_json true (Some (_id doc)) true)),
           extend w [doc]
             [DbWrite doc; MailSend (RevB.submission_mail st doc);
              ConsoleLog (lit "[mail] sendMail accepted, id:")]))) /\
  (forall saved id mailed,
      success_shape (success_json saved id mailed) saved id mailed).
Proof.
  split; [|split; [|reflexivity]].
  - intros st req c w model H Hs doc Hw.
    rewrite RevA_pipeline with (c := c) by exact H. rewrite Hs.
    cbv zeta. fold doc. rewrite Hw.
    destruct (RevA.transporter st) as [t|].
    + split; [|split; [discriminate|]].
      * intros r w'. destruct (sendMail t _); intros E S;
          injection E as <- <-; [reflexivity|discriminate].
      * intros t' E Ha. injection E as <-.
        apply accepts_resolves in Ha as [i ->]. reflexivity.
    + split; [|split; [reflexivity|discriminate]].
      intros r w' E _. now injection E as <- <-.
  - intros st req w model H Hm doc Hw.
    rewrite RevB_present with (model := model) by assumption.
    cbv zeta. fold doc. rewrite Hw. split.
    + eauto.
    + intros t Ht Ha. now rewrite (accepts_mailed Ht Ha).
Qed.

Lemma filled_honeypot_truthy req payload s :
  body req = Some payload ->
  Get payload (lit "company") = Some (JString s) ->
  s <> [] ->
  truthy (Get (body_or_empty (body req)) (lit "company")) = true.
Proof.
  intros Hb Hg Hs. rewrite Hb.
  destruct payload; try discriminate. cbn [body_or_empty ToBoolean].
  rewrite Hg. destruct s; [contradiction|reflexivity].
Qed.

(** C2: for every payload whose [company] field is present and a
    non-empty string, the handlers of revisions A and C answer
    [200 {success: true}] and leave the world as it was: no record is
    written, no mail is sent, nothing is logged, and nothing about the
    other fields shows in the response. *)
Theorem honeypot_short_circuits stA stC req w payload s :
  body req = Some payload ->
  Get payload (lit "company") = Some (JString s) ->
  s <> [] ->
  RevA.contact stA req w = (Normal (respond 200 ok_json), w) /\
  RevC.contact stC req w = (Normal (respond 200 ok_json), w).
Proof.
  intros Hb Hg Hs.
  pose proof (filled_honeypot_truthy req Hb Hg Hs) as T.
  split; [now apply RevA_honeypot | now apply RevC_honeypot].
Qed.



(** C8 (as amended): in revisions A and B the health endpoint always
    answers [{ok: true, db, mail}].  In revision A [db] is the [dbReady]
    flag, which after start-up is true exactly when the contact handler
    has a model to write through, and [mail] tells whether the transporter
    was created, that is whether [SENDGRID_SMTP_PASS] is set; in revision B
    [db] is [readyState === 1] and [mail] tells whether
    [SENDGRID_SMTP_PASS] is set.  In revision C the endpoint answers
    [{ok: true}] only. *)
Theorem health_reports_collaborators :
  (forall st,
      status (RevA.health st) = 200%N /\
      health_shape (json (RevA.health st)) (RevA.dbReady st)
        (is_some (RevA.transporter st))) /\
  (forall penv createTransport connect model,
      let st := RevA.boot penv createTransport connect model in
      RevA.dbReady st = is_some (RevA.storage st) /\
      is_some (RevA.transporter st) = env_set (SENDGRID_SMTP_PASS penv)) /\
  (forall st,
      status (RevB.health st) = 200%N /\
      health_shape (json (RevB.health st)) (N.eqb (RevB.readyState st) 1)
        (env_set (SENDGRID_SMTP_PASS (RevB.env st)))) /\
  (forall st,
      RevC.health st = respond 200 (JObject [(lit "ok", JBool true)])).
Proof.
  repeat split.
  - unfold RevA.boot, RevA.storage.
    destruct (env_set (MONGO_URI penv)); [destruct connect|]; reflexivity.
  - unfold RevA.boot.
    destruct (env_set (MONGO_URI penv)); [destruct connect|];
      cbn [RevA.transporter]; now destruct (env_set (SENDGRID_SMTP_PASS penv)).
Qed.

Lemma RevA_never_throws st req w :
  exists r w', RevA.contact st req w = (Normal r, w').
Proof.
  unfold RevA.contact, try_catch.
  match goal with |- context [match ?c w with _ => _ end] => destruct (c w) as [[r|e] w'] end.
  - eauto.
  - rewrite RevA_on_error. eauto.
Qed.

Lemma RevC_never_throws st req w :
  exists r w', RevC.contact st req w = (Normal r, w').
Proof.
  unfold RevC.contact, try_catch.
  match goal with |- context [match ?c w with _ => _ end] => destruct (c w) as [[r|e] w'] end.
  - eauto.
  - rewrite RevC_on_error. eauto.
Qed.

Lemma Get_submission a b c :
  Get (submission a b c) (lit "name") = Some a /\
  Get (submission a b c) (lit "email") = Some b /\
  Get (submission a b c) (lit "message") = Some c /\
  Get (submission a b c) (lit "company") = None.
Proof. repeat split. Qed.

Lemma number_name_is_accepted n req :
  NumberToBoolean n = true ->
  nonempty (trim (NumberToString n)) = true ->
  body req = Some (submission (JNumber n) (JString (lit "a@b.co"))
                     (JString (lit "hi"))) ->
  exists c, accepted_submission req = Some c /\
            name c = trim (NumberToString n).
Proof.
  intros Hn Ht Hb. unfold accepted_submission. rewrite Hb.
  cbn [body_or_empty ToBoolean submission]. fold (submission (JNumber n)
    (JString (lit "a@b.co")) (JString (lit "hi"))).
  destruct (Get_submission (JNumber n) (JString (lit "a@b.co"))
              (JString (lit "hi"))) as (-> & -> & -> & ->).
  cbn [truthy]. unfold normalize.
  rewrite (clean_field_number n Hn).
  change (clean_field (Some (JString (lit "a@b.co")))) with (Normal (lit "a@b.co")).
  change (clean_field (Some (JString (lit "hi")))) with (Normal (lit "hi")).
  unfold invalid. cbn [name email message]. rewrite Ht.
  change (emailOk (lit "a@b.co")) with true. cbn [negb orb nonempty lit].
  eexists. split; reflexivity.
Qed.

(** C9 (as amended): normalisation coerces each field with [String(...)]
    and trims it.  A missing, [null] or otherwise falsy field normalises to
    the empty string.  A truthy value is rendered, and trimmed, exactly
    when no object with an own [toString] property sits at its top or
    among the elements of its arrays and its arrays nest no deeper than
    the call stack allows; otherwise [String(...)] raises, a [TypeError] for
    such an object, a [RangeError] for arrays nested too deep.  A truthy
    number is coerced to its rendering and, in place of the name, passes
    validation.  Whatever the payload, the handlers of revisions A and C
    return a response: an exception of the normalisation ends in the outer
    [catch], which answers 500. *)
Theorem normalization_renders_or_raises :
  (forall o, truthy o = false -> clean_field o = Normal []) /\
  (forall v, ToBoolean v = true -> renders stack_budget v = true ->
             exists s, ToString v = Normal s /\
                       clean_field (Some v) = Normal (trim s)) /\
  (forall v, ToBoolean v = true -> renders stack_budget v = false ->
             exists e, clean_field (Some v) = Throw e /\
                       (e = TypeError \/ e = RangeError)) /\
  (forall v fuel,
      renders fuel v = stringifiable v && (nesting v <=? fuel)) /\
  (forall props, has_own props (lit "toString") = true ->
                 clean_field (Some (JObject props)) = Throw TypeError) /\
  (forall n v, stack_budget < n ->
               clean_field (Some (nest n v)) = Throw RangeError) /\
  (forall n, NumberToBoolean n = true ->
             clean_field (Some (JNumber n)) = Normal (trim (NumberToString n))) /\
  (forall n req,
      NumberToBoolean n = true ->
      nonempty (trim (NumberToString n)) = true ->
      body req = Some (submission (JNumber n) (JString (lit "a@b.co"))
                         (JString (lit "hi"))) ->
      exists c, accepted_submission req = Some c /\
                name c = trim (NumberToString n)) /\
  (forall stA stC req w,
      (exists r w', RevA.contact stA req w = (Normal r, w')) /\
      (exists r w', RevC.contact stC req w = (Normal r, w'))) /\
  (forall stA stC req w e,
      truthy (Get (body_or_empty (body req)) (lit "company")) = false ->
      normalize req (Get (body_or_empty (body req)) (lit "name"))
        (Get (body_or_empty (body req)) (lit "email"))
        (Get (body_or_empty (body req)) (lit "message")) = Throw e ->
      RevA.contact stA req w =
      (Normal (respond 500 server_error_json), extend w [] [failed]) /\
      RevC.contact stC req w =
      (Normal (respond 500 server_error_json), extend w [] [failed])).
Proof.
  split; [exact clean_field_falsy|].
  split.
  { intros v Hv Hs. destruct (ToString_renders v Hs) as [s E].
    exists s. split; [exact E|]. rewrite (clean_field_truthy v Hv).
    now rewrite E. }
  split.
  { intros v Hv Hs. destruct (ToString_raises v Hs) as (e & E & He).
    exists e. split; [|exact He]. rewrite (clean_field_truthy v Hv).
    now rewrite E. }
  split; [intros v fuel; apply renders_spec|].
  split.
  { intros props H. rewrite clean_field_truthy by reflexivity.
    unfold ToString. cbn [ToStringWithin]. now rewrite H. }
  split.
  { intros n v H. destruct n as [|n]; [lia|].
    rewrite clean_field_truthy by reflexivity.
    unfold ToString. now rewrite nest_overflows by exact H. }
  split; [exact clean_field_number|].
  split; [exact number_name_is_accepted|].
  split.
  { intros. split; [apply RevA_never_throws|apply RevC_never_throws]. }
  intros stA stC req w e Hc Hn.
  split; [now apply RevA_normalize_throws with (e := e)
         |now apply RevC_normalize_throws with (e := e)].
Qed.

End Claims.

(** ** Worked runs *)

Section Runs.

Import Fixtures.
#[local] Existing Instance IntegerNumbers.
#[local] Existing Instance ThousandFrames.

Lemma ada_accepted : accepted_submission ada = Some ada_cleaned.
Proof. reflexivity. Qed.

(** C1 at Ada's submission: the relay is down, the request fails. *)
Lemma RevA_mail_failure_run :
  RevA.contact A_mail_down ada world0 =
  (Normal (respond 500 server_error_json),
   extend world0 []
     [MailSend (RevA.inquiry_mail A_mail_down ada_cleaned None); failed]).
Proof.
  apply (@RevA_mail_failure_is_server_error IntegerNumbers ThousandFrames A_mail_down ada
           ada_cleaned world0 smtp_down MailError); reflexivity.
Defined.

(** C5 at Ada's submission: no [MONGO_URI], the request fails. *)
Lemma RevB_storage_absent_run :
  RevB.contact B_no_db ada world0 =
  (Normal (respond 500 server_error_json_B),
   extend world0 [] [ConsoleError (lit "[api] /api/contact error:")]).
Proof.
  apply (@RevB_storage_absent_is_server_error IntegerNumbers B_no_db ada
           world0); reflexivity.
Defined.

(** C7 at Ada's submission: the backend rejects the write. *)
Lemma RevA_write_failure_run :
  RevA.contact A_db_rejecting ada world0 =
  (Normal (respond 500 server_error_json),
   extend world0 [] [DbWrite ada_doc; failed])
  /\ failure_shape server_error_json.
Proof.
  apply (@RevA_write_failure_is_server_error IntegerNumbers ThousandFrames A_db_rejecting ada
           ada_cleaned world0 mongo_rejecting StorageError); reflexivity.
Defined.

(** C10 at Ada's submission: the record is stored, the relay is down. *)
Lemma persisted_record_survives_run :
  (exists w',
      RevA.contact A_db_mail_down ada world0 =
      (Normal (respond 500 server_error_json), w')
      /\ db w' = db world0 ++ [ada_doc] /\ In ada_doc (db w')) /\
  (exists w',
      RevC.contact C_mail_down ada world0 =
      (Normal (respond 500 server_error_json), w')
      /\ db w' = db world0 ++ [ada_doc] /\ In ada_doc (db w')).
Proof.
  split.
  - apply (proj1 (@persisted_record_survives_mail_failure IntegerNumbers ThousandFrames)
             A_db_mail_down ada ada_cleaned world0 mongo smtp_down MailError);
      reflexivity.
  - apply (proj2 (@persisted_record_survives_mail_failure IntegerNumbers ThousandFrames)
             C_mail_down ada ada_cleaned world0 MailError); reflexivity.
Defined.

Lemma smtp_accepts m : accepts smtp m.
Proof.
  unfold accepts, smtp. cbn [sendMail].
  eexists. eexists. split; [reflexivity|].
  split; [reflexivity|discriminate].
Qed.

(** C6 at Ada's submission, storage and mail healthy (scenario A of the
    specification), in revisions A and B. *)
Lemma stored_submission_run :
  RevA.contact A_healthy ada world0 =
  (Normal (respond 200 (success_json true (Some hex_id) true)),
   extend world0 [ada_doc]
     [DbWrite ada_doc;
      MailSend (RevA.inquiry_mail A_healthy ada_cleaned (Some hex_id))]) /\
  RevB.contact B_healthy ada world0 =
  (Normal (respond 200 (success_json true (Some hex_id) true)),
   extend world0 [ada_doc_B]
     [DbWrite ada_doc_B; MailSend (RevB.submission_mail B_healthy ada_doc_B);
      ConsoleLog (lit "[mail] sendMail accepted, id:")]).
Proof.
  split.
  - apply (proj2 (proj2 (proj1 (@stored_submission_response IntegerNumbers ThousandFrames)
             A_healthy ada ada_cleaned world0 mongo
             eq_refl eq_refl eq_refl)) smtp eq_refl).
    apply smtp_accepts.
  - apply (proj2 (proj1 (proj2 (@stored_submission_response IntegerNumbers ThousandFrames))
             B_healthy ada world0 mongo eq_refl eq_refl eq_refl)
             smtp eq_refl).
    apply smtp_accepts.
Defined.

(** C2 at the bot's submission (scenario D of the specification). *)
Lemma honeypot_run :
  RevA.contact A_healthy bot world0 = (Normal (respond 200 ok_json), world0) /\
  RevC.contact C_mail_down bot world0 = (Normal (respond 200 ok_json), world0).
Proof.
  apply (@honeypot_short_circuits IntegerNumbers ThousandFrames A_healthy C_mail_down bot
           world0 bot_payload (lit "Acme"));
    [reflexivity|reflexivity|discriminate].
Defined.



(** The defect of revision B that C3 runs into: its handler tests the
    fields without trimming them, so the name [" "], empty once trimmed,
    passes the test and is handed to the storage collaborator; with a
    backend that rejects the write the answer is 500, not the 400 that
    revision A gives to the same payload. *)
Lemma RevB_blank_name_reaches_storage :
  trim (lit " ") = [] /\
  RevB.contact B_db_rejecting blank_name world0 =
  (Normal (respond 500 server_error_json_B),
   extend world0 []
     [DbWrite (build [] (RevB.contact_fields blank_name 0));
      ConsoleError (lit "[api] /api/contact error:")]) /\
  RevA.contact A_db_rejecting blank_name world0 =
  (Normal (respond 400 invalid_json), world0).
Proof. repeat split. Qed.

(** C8 (as stated) fails: the health endpoint of revision C answers
    [{ok: true}], with no [db] and no [mail] field. *)
Lemma RevC_health_has_no_flags :
  RevC.health C_mail_down = respond 200 (JObject [(lit "ok", JBool true)]) /\
  Get (json (RevC.health C_mail_down)) (lit "db") = None /\
  Get (json (RevC.health C_mail_down)) (lit "mail") = None.
Proof. repeat split. Qed.

(** C9 (as amended) at [{name: 42, ...}]: the number is rendered and the
    submission passes validation. *)
Lemma numeric_name_run :
  exists c, accepted_submission numeric_name = Some c /\
            name c = trim (NumberToString 42%Z).
Proof.
  apply (proj1 (proj2 (proj2 (proj2 (proj2 (proj2 (proj2 (proj2
           (@normalization_renders_or_raises IntegerNumbers
              ThousandFrames))))))))
           42%Z numeric_name); reflexivity.
Defined.

(** C9 (as stated) fails: normalisation is not total.  On
    [{name: {toString: 1}, ...}] the call [String(name)] raises a
    [TypeError], no [cleaned] object is built, and the handler answers
    500. *)
Lemma normalization_not_total :
  ToBoolean shadowed_toString = true /\
  clean_field (Some shadowed_toString) = Throw TypeError /\
  normalize odd_name (Some shadowed_toString) (Some (JString (lit "a@b.co")))
    (Some (JString (lit "hi"))) = Throw TypeError /\
  RevA.contact A_healthy odd_name world0 =
  (Normal (respond 500 server_error_json), extend world0 [] [failed]).
Proof. repeat split. Qed.

(** The other way normalisation fails: on a name of 5000 arrays inside one
    another, in an engine whose stack holds a thousand of them,
    [String(name)] raises a [RangeError] and the handler answers 500. *)
Lemma normalization_overflows :
  clean_field (Some (nest 5000 (JString (lit "x")))) = Throw RangeError /\
  RevA.contact A_healthy MoreFixtures.deep_name world0 =
  (Normal (respond 500 server_error_json), extend world0 [] [failed]).
Proof. split; vm_compute; reflexivity. Qed.

End Runs.

(** ** Further properties of the handlers *)

Section Further.

Context {NUM : JsNumber} {ENGINE : JsEngine}.

Lemma RevA_unaccepted st req w :
  accepted_submission req = None ->
  (RevA.contact st req w = (Normal (respond 200 ok_json), w) /\
   truthy (Get (body_or_empty (body req)) (lit "company")) = true) \/
  (RevA.contact st req w = (Normal (respond 400 invalid_json), w) /\
   truthy (Get (body_or_empty (body req)) (lit "company")) = false) \/
  (RevA.contact st req w =
   (Normal (respond 500 server_error_json), extend w [] [failed]) /\
   truthy (Get (body_or_empty (body req)) (lit "company")) = false).
Proof.
  unfold accepted_submission. cbv zeta.
  destruct (truthy (Get _ (lit "company"))) eqn:Hc.
  - intros _. left. split; [now apply RevA_honeypot|reflexivity].
  - destruct (normalize _ _ _ _) as [c|e] eqn:Hn.
    + destruct (invalid c) eqn:Hv; [|discriminate].
      intros _. right. left. split; [|reflexivity].
      now apply RevA_invalid with (c := c).
    + intros _. right. right. split; [|reflexivity].
      now apply RevA_normalize_throws with (e := e).
Qed.

Lemma RevC_invalid st req w c :
  truthy (Get (body_or_empty (body req)) (lit "company")) = false ->
  normalize req (Get (body_or_empty (body req)) (lit "name"))
    (Get (body_or_empty (body req)) (lit "email"))
    (Get (body_or_empty (body req)) (lit "message")) = Normal c ->
  invalid c = true ->
  RevC.contact st req w = (Normal (respond 400 invalid_json), w).
Proof.
  intros Hc Hn Hv. unfold RevC.contact, try_catch, bind, lift, ret.
  cbv zeta. now rewrite Hc, Hn, Hv.
Qed.

Lemma RevC_unaccepted st req w :
  accepted_submission req = None ->
  (RevC.contact st req w = (Normal (respond 200 ok_json), w) /\
   truthy (Get (body_or_empty (body req)) (lit "company")) = true) \/
  (RevC.contact st req w = (Normal (respond 400 invalid_json), w) /\
   truthy (Get (body_or_empty (body req)) (lit "company")) = false) \/
  (RevC.contact st req w =
   (Normal (respond 500 server_error_json), extend w [] [failed]) /\
   truthy (Get (body_or_empty (body req)) (lit "company")) = false).
Proof.
  unfold accepted_submission. cbv zeta.
  destruct (truthy (Get _ (lit "company"))) eqn:Hc.
  - intros _. left. split; [now apply RevC_honeypot|reflexivity].
  - destruct (normalize _ _ _ _) as [c|e] eqn:Hn.
    + destruct (invalid c) eqn:Hv; [|discriminate].
      intros _. right. left. split; [|reflexivity].
      now apply RevC_invalid with (c := c).
    + intros _. right. right. split; [|reflexivity].
      now apply RevC_normalize_throws with (e := e).
Qed.

(** Every way a request to revision A, C or B can end, one goal each; the
    goal is expected to start with the equation of the run. *)
Ltac RevA_cases st req w :=
  let c := fresh "c" in
  let Hacc := fresh "Hacc" in
  destruct (accepted_submission req) as [c|] eqn:Hacc;
  [ rewrite RevA_pipeline with (c := c) by exact Hacc; cbv zeta;
    destruct (RevA.storage st) as [?model|] eqn:?Hs;
    [ destruct (save _ _ _) as [[]|?e] eqn:?Hw |];
    try (destruct (RevA.transporter st) as [?t|] eqn:?Ht;
         [ destruct (sendMail _ _) as [?i|?e] eqn:?Hm |])
  | destruct (@RevA_unaccepted st req w Hacc)
      as [[-> ?Hc]|[[-> ?Hc]|[-> ?Hc]]] ].

Ltac RevC_cases st req w :=
  let c := fresh "c" in
  let Hacc := fresh "Hacc" in
  destruct (accepted_submission req) as [c|] eqn:Hacc;
  [ rewrite RevC_pipeline with (c := c) by exact Hacc; cbv zeta;
    destruct (save _ _ _) as [[]|?e] eqn:?Hw;
    try (destruct (sendMail _ _) as [?i|?e] eqn:?Hm)
  | destruct (@RevC_unaccepted st req w Hacc)
      as [[-> ?Hc]|[[-> ?Hc]|[-> ?Hc]]] ].

Ltac RevB_cases st req w :=
  let Hp := fresh "Hp" in
  destruct (required_present req) eqn:Hp;
  [ destruct (RevB.Contact st) as [?model|] eqn:?Hs;
    [ rewrite RevB_present with (model := model) by assumption; cbv zeta;
      destruct (save _ _ _) as [[]|?e] eqn:?Hw
    | rewrite RevB_no_model by assumption ]
  | rewrite RevB_missing by assumption ].

Ltac run_equation E := injection E as <- <-.

(** X1: a 400 has no side effect.  In each of the three revisions, when
    the contact handler answers 400 the world is exactly as before: no
    record, no collaborator call, no log line. *)
Theorem bad_request_leaves_world_unchanged :
  (forall st req w r w',
      RevA.contact st req w = (Normal r, w') -> status r = 400%N -> w' = w) /\
  (forall st req w r w',
      RevB.contact st req w = (Normal r, w') -> status r = 400%N -> w' = w) /\
  (forall st req w r w',
      RevC.contact st req w = (Normal r, w') -> status r = 400%N -> w' = w).
Proof.
  split; [|split]; intros st req w r w'.
  - RevA_cases st req w; intros E S; run_equation E;
      try discriminate S; reflexivity.
  - RevB_cases st req w; intros E S; run_equation E;
      try discriminate S; reflexivity.
  - RevC_cases st req w; intros E S; run_equation E;
      try discriminate S; reflexivity.
Qed.

(** X2: the handlers always answer, and the [success] field tells the
    status.  In each revision every request gets a response (no exception
    leaves the handler), its status is 200, 400 or 500, and the body's
    [success] is [true] exactly when the status is 200. *)
Theorem response_status_matches_success_flag :
  (forall st req w, exists r w',
      RevA.contact st req w = (Normal r, w') /\
      (status r = 200 \/ status r = 400 \/ status r = 500)%N /\
      Get (json r) (lit "success") = Some (JBool (N.eqb (status r) 200))) /\
  (forall st req w, exists r w',
      RevB.contact st req w = (Normal r, w') /\
      (status r = 200 \/ status r = 400 \/ status r = 500)%N /\
      Get (json r) (lit "success") = Some (JBool (N.eqb (status r) 200))) /\
  (forall st req w, exists r w',
      RevC.contact st req w = (Normal r, w') /\
      (status r = 200 \/ status r = 400 \/ status r = 500)%N /\
      Get (json r) (lit "success") = Some (JBool (N.eqb (status r) 200))).
Proof.
  split; [|split]; intros st req w.
  - RevA_cases st req w; eexists; eexists;
      (split; [reflexivity|split; [simpl; auto|reflexivity]]).
  - RevB_cases st req w; eexists; eexists;
      (split; [reflexivity|split; [simpl; auto|reflexivity]]).
  - RevC_cases st req w; eexists; eexists;
      (split; [reflexivity|split; [simpl; auto|reflexivity]]).
Qed.

Ltac frame_by_cases :=
  first
    [ eexists; eexists; split; [reflexivity|]
    | exists [], []; split; [symmetry; apply extend_nil|] ].

(** X3: the store is append-only and a request adds at most one record.
    In each revision the world after a request is the world before it
    with at most one record appended to the store and some events appended
    to the trace: no stored record is changed, removed or reordered. *)
Theorem store_is_append_only :
  (forall st req w r w',
      RevA.contact st req w = (Normal r, w') ->
      exists stored evs, w' = extend w stored evs /\ List.length stored <= 1) /\
  (forall st req w r w',
      RevB.contact st req w = (Normal r, w') ->
      exists stored evs, w' = extend w stored evs /\ List.length stored <= 1) /\
  (forall st req w r w',
      RevC.contact st req w = (Normal r, w') ->
      exists stored evs, w' = extend w stored evs /\ List.length stored <= 1).
Proof.
  split; [|split]; intros st req w r w'.
  - RevA_cases st req w; intros E; run_equation E; frame_by_cases; simpl; lia.
  - RevB_cases st req w; intros E; run_equation E; frame_by_cases; simpl; lia.
  - RevC_cases st req w; intros E; run_equation E; frame_by_cases; simpl; lia.
Qed.

(** X4: nothing is stored or mailed for a submission that is not accepted.
    In revisions A and C, when the honeypot is filled, a field cannot be
    rendered or validation fails, the world after the request is the
    world before it, or that world with the one log line of the outer
    [catch]: neither collaborator is called. *)
Theorem unaccepted_submission_reaches_no_collaborator stA stC req w :
  accepted_submission req = None ->
  (exists r, RevA.contact stA req w = (Normal r, w) \/
             RevA.contact stA req w = (Normal r, extend w [] [failed])) /\
  (exists r, RevC.contact stC req w = (Normal r, w) \/
             RevC.contact stC req w = (Normal r, extend w [] [failed])).
Proof.
  intro H. split.
  - destruct (@RevA_unaccepted stA req w H) as [[E _]|[[E _]|[E _]]];
      rewrite E; eauto.
  - destruct (@RevC_unaccepted stC req w H) as [[E _]|[[E _]|[E _]]];
      rewrite E; eauto.
Qed.

Lemma accepted_valid req c : accepted_submission req = Some c -> invalid c = false.
Proof. intro H. now apply accepted_submission_inv in H. Qed.

Ltac new_event H :=
  unfold extend in H; cbn [trace db] in H;
  apply in_app_or in H as [H|H]; [left; exact H|right];
  cbn [In] in H;
  repeat match type of H with
         | _ \/ _ => destruct H as [H|H]
         | False => contradiction
         | _ = _ => first [discriminate H | injection H as <-]
         end.

Lemma notify_writes_nothing st d doc :
  ~ In (DbWrite doc) (snd (notify_outcome st d)).
Proof.
  unfold notify_outcome. cbv zeta.
  destruct (RevB.transporter st) as [t|].
  - destruct (sendMail t _) as [[inf|]|e]; cbn [snd In];
      intros [H|[H|[]]]; discriminate H.
  - cbn [snd In]. intros [H|[]]; discriminate H.
Qed.

Lemma notify_mails_once st d m :
  In (MailSend m) (snd (notify_outcome st d)) ->
  m = RevB.submission_mail st d /\ exists t, RevB.transporter st = Some t.
Proof.
  unfold notify_outcome. cbv zeta.
  destruct (RevB.transporter st) as [t|].
  - destruct (sendMail t _) as [[inf|]|e]; cbn [snd In];
      intros [H|[H|[]]]; try discriminate H;
      injection H as <-; eauto.
  - cbn [snd In]. intros [H|[]]; discriminate H.
Qed.

(** X5: what is handed to the storage collaborator.  In revisions A and C
    every write of a request is the document the model builds from the
    cleaned fields of an accepted submission (trimmed name, email and
    message, and the client address): never from the raw payload, and
    with no other key of the payload.  In revision B it is the document
    built from the raw [name], [email] and [message] of a request whose
    three fields are truthy, [req.ip] and the current time. *)
Theorem written_record_is_built_from_the_submission :
  (forall st req w r w' doc,
      RevA.contact st req w = (Normal r, w') ->
      In (DbWrite doc) (trace w') ->
      In (DbWrite doc) (trace w) \/
      exists c model,
        accepted_submission req = Some c /\ invalid c = false /\
        RevA.storage st = Some model /\
        doc = construct model (db w) (fields_of c)) /\
  (forall st req w r w' doc,
      RevC.contact st req w = (Normal r, w') ->
      In (DbWrite doc) (trace w') ->
      In (DbWrite doc) (trace w) \/
      exists c,
        accepted_submission req = Some c /\ invalid c = false /\
        doc = construct (RevC.Contact st) (db w) (fields_of c)) /\
  (forall st req w r w' doc,
      RevB.contact st req w = (Normal r, w') ->
      In (DbWrite doc) (trace w') ->
      In (DbWrite doc) (trace w) \/
      exists model,
        required_present req = true /\ RevB.Contact st = Some model /\
        doc = construct model (db w) (RevB.contact_fields req (now w))).
Proof.
  split; [|split]; intros st req w r w' doc.
  - RevA_cases st req w; intros E H; run_equation E;
      try (left; exact H); new_event H;
      eauto 8 using accepted_valid.
  - RevC_cases st req w; intros E H; run_equation E;
      try (left; exact H); new_event H;
      eauto 8 using accepted_valid.
  - RevB_cases st req w; intros E H; run_equation E;
      try (left; exact H); new_event H; eauto 8.
    now apply notify_writes_nothing in H.
Qed.

Ltac events :=
  repeat match goal with
         | |- forall _, _ => intro
         | |- _ /\ _ => split
         | H : exists _, _ |- _ => destruct H
         | H : In _ [] |- _ => destruct H
         | H : In _ (_ :: _) |- _ => destruct H as [H|H]
         | H : DbWrite _ = DbWrite _ |- _ => injection H as <-
         | H : MailSend _ = MailSend _ |- _ => injection H as <-
         | H : @eq event _ _ |- _ => discriminate H
         | H : @eq (list document) _ _ |- _ => discriminate H
         | H : In (DbWrite _) (snd (notify_outcome _ _)) |- _ =>
             apply notify_writes_nothing in H; destruct H
         end.

(** X6: no mail about a write that failed.  In each revision, when a
    request both called the storage collaborator and handed a mail to the
    transporter, the record of that call is in the store: the mail is
    attempted only after the write has succeeded.  In revisions B and C no
    mail is attempted at all unless a record was stored. *)
Theorem mail_follows_successful_write :
  (forall st req w r w',
      RevA.contact st req w = (Normal r, w') ->
      exists stored evs,
        w' = extend w stored evs /\
        (forall doc m, In (DbWrite doc) evs -> In (MailSend m) evs ->
                       stored = [doc])) /\
  (forall st req w r w',
      RevB.contact st req w = (Normal r, w') ->
      exists stored evs,
        w' = extend w stored evs /\
        (forall m, In (MailSend m) evs ->
                   exists doc, stored = [doc] /\ In (DbWrite doc) evs)) /\
  (forall st req w r w',
      RevC.contact st req w = (Normal r, w') ->
      exists stored evs,
        w' = extend w stored evs /\
        (forall m, In (MailSend m) evs ->
                   exists doc, stored = [doc] /\ In (DbWrite doc) evs)).
Proof.
  split; [|split]; intros st req w r w'.
  - RevA_cases st req w; intros E; run_equation E; frame_by_cases;
      events; reflexivity.
  - RevB_cases st req w; intros E; run_equation E; frame_by_cases;
      events; eexists; split; try reflexivity; now left.
  - RevC_cases st req w; intros E; run_equation E; frame_by_cases;
      events; eexists; split; try reflexivity; now left.
Qed.

Lemma Get_success_json saved id mailed :
  Get (success_json saved id mailed) (lit "saved") = Some (JBool saved) /\
  Get (success_json saved id mailed) (lit "id") = Some (id_json id) /\
  Get (success_json saved id mailed) (lit "mailed") = Some (JBool mailed).
Proof. repeat split. Qed.

Ltac read_flag H :=
  cbn [json respond] in H;
  first [ discriminate H
        | rewrite (proj1 (Get_success_json _ _ _)) in H
        | rewrite (proj2 (proj2 (Get_success_json _ _ _))) in H ];
  injection H as <-.

(** X7: the [saved] flag and the [id] of the response tell what happened
    to the store.  In revisions A and B, whenever the response carries a
    [saved] field, [saved] is [true] exactly when the request added a
    record, [id] is then the identifier of that record, and [id] is
    [null] when nothing was added. *)
Theorem saved_flag_is_truthful :
  (forall st req w r w' b,
      RevA.contact st req w = (Normal r, w') ->
      Get (json r) (lit "saved") = Some (JBool b) ->
      exists stored evs,
        w' = extend w stored evs /\
        (b = true <-> stored <> []) /\
        (forall doc, stored = [doc] ->
                     Get (json r) (lit "id") = Some (JString (_id doc))) /\
        (stored = [] -> Get (json r) (lit "id") = Some JNull)) /\
  (forall st req w r w' b,
      RevB.contact st req w = (Normal r, w') ->
      Get (json r) (lit "saved") = Some (JBool b) ->
      exists doc evs,
        w' = extend w [doc] evs /\ b = true /\
        Get (json r) (lit "id") = Some (JString (_id doc))).
Proof.
  split; intros st req w r w' b.
  - RevA_cases st req w; intros E H; run_equation E; read_flag H;
      frame_by_cases;
      (split; [split; [discriminate|intro N; try reflexivity; now elim N]|]);
      (split; [intros d Ed; try discriminate Ed; injection Ed as <-;
               reflexivity
              |intro En; try discriminate En; reflexivity]).
  - RevB_cases st req w; intros E H; run_equation E; read_flag H.
    eexists; eexists. split; [reflexivity|]. split; reflexivity.
Qed.

Lemma notify_flag st d :
  fst (notify_outcome st d) = true <->
  exists t, RevB.transporter st = Some t /\
            accepts t (RevB.submission_mail st d).
Proof.
  unfold notify_outcome, accepts. cbv zeta.
  destruct (RevB.transporter st) as [t|]; cbn [fst].
  - destruct (sendMail t (RevB.submission_mail st d)) as [[inf|]|e] eqn:Em;
      cbn [fst].
    + unfold RevB.mailed_of. split.
      * destruct (accepted inf) as [l|] eqn:Ea; [|discriminate].
        intro H. exists t. split; [reflexivity|]. exists inf, l.
        split; [exact Em|]. split; [exact Ea|].
        intros ->. discriminate H.
      * intros (t' & E & inf' & l & Ei & Ea & Hl).
        injection E as <-. rewrite Em in Ei. injection Ei as <-.
        rewrite Ea. destruct l; [contradiction|reflexivity].
    + split; [discriminate|].
      intros (t' & E & inf' & l & Ei & _). injection E as <-.
      rewrite Em in Ei. discriminate.
    + split; [discriminate|].
      intros (t' & E & inf' & l & Ei & _). injection E as <-.
      rewrite Em in Ei. discriminate.
  - split; [discriminate|]. intros (t & E & _). discriminate.
Qed.

(** X11: what the [mailed] flag means in each revision.  In revision A a
    response that carries [mailed] has it equal to [Boolean(transporter)],
    and it is [true] exactly when the request handed a mail to the
    transporter (whose promise then resolved, with any [accepted] list).
    In revision B it is [true] exactly when a transporter is configured
    and accepts the message about the stored record, that is when
    [sendMail] resolves with a non-empty [accepted] list. *)
Theorem mailed_flag_meaning :
  (forall st req w r w' b,
      RevA.contact st req w = (Normal r, w') ->
      Get (json r) (lit "mailed") = Some (JBool b) ->
      b = is_some (RevA.transporter st) /\
      exists stored evs,
        w' = extend w stored evs /\
        (b = true <-> exists m, In (MailSend m) evs)) /\
  (forall st req w r w' b,
      RevB.contact st req w = (Normal r, w') ->
      Get (json r) (lit "mailed") = Some (JBool b) ->
      exists doc evs,
        w' = extend w [doc] evs /\
        (b = true <->
         exists t, RevB.transporter st = Some t /\
                   accepts t (RevB.submission_mail st doc))).
Proof.
  split; intros st req w r w' b.
  - RevA_cases st req w; intros E H; run_equation E; read_flag H;
      (split; [reflexivity|]); frame_by_cases;
      (split; [intro Hb; first [discriminate Hb|eexists; simpl; eauto]
              |intros [m0 Hin]; events; try reflexivity]).
  - RevB_cases st req w; intros E H; run_equation E; read_flag H.
    eexists; eexists. split; [reflexivity|]. apply notify_flag.
Qed.

(** X12: what the notification says and to whom.  In revisions A and C
    every mail a request hands to the transporter is the inquiry mail of
    an accepted submission: its reply-to is the validated address of the
    submission, and it names the identifier of the record this request
    stored when there is one (revision A without storage names none).  In
    revision B it is the mail composed from the stored document. *)
Theorem notification_is_about_the_submission :
  (forall st req w r w' m,
      RevA.contact st req w = (Normal r, w') ->
      In (MailSend m) (trace w') ->
      In (MailSend m) (trace w) \/
      exists c id,
        accepted_submission req = Some c /\
        m = RevA.inquiry_mail st c id /\
        m_replyTo m = Some (email c) /\ emailOk (email c) = true /\
        match RevA.storage st with
        | Some model =>
            id = Some (_id (construct model (db w) (fields_of c))) /\
            In (construct model (db w) (fields_of c)) (db w')
        | None => id = None
        end) /\
  (forall st req w r w' m,
      RevC.contact st req w = (Normal r, w') ->
      In (MailSend m) (trace w') ->
      In (MailSend m) (trace w) \/
      exists c,
        accepted_submission req = Some c /\
        m = RevC.inquiry_mail st c
              (construct (RevC.Contact st) (db w) (fields_of c)) /\
        m_replyTo m = Some (email c) /\ emailOk (email c) = true /\
        In (construct (RevC.Contact st) (db w) (fields_of c)) (db w')) /\
  (forall st req w r w' m,
      RevB.contact st req w = (Normal r, w') ->
      In (MailSend m) (trace w') ->
      In (MailSend m) (trace w) \/
      exists model,
        RevB.Contact st = Some model /\
        m = RevB.submission_mail st
              (construct model (db w) (RevB.contact_fields req (now w))) /\
        In (construct model (db w) (RevB.contact_fields req (now w)))
           (db w')).
Proof.
  assert (V : forall c, invalid c = false -> emailOk (email c) = true).
  { intros c H. unfold invalid in H.
    apply orb_false_iff in H as [H _]. apply orb_false_iff in H as [_ H].
    now apply negb_false_iff in H. }
  assert (L : forall (d : document) l, In d (l ++ [d])).
  { intros. apply in_or_app. right. now left. }
  split; [|split]; intros st req w r w' m.
  - RevA_cases st req w; intros E H; run_equation E;
      try (left; exact H); new_event H;
      exists c; eexists; (split; [reflexivity|]); (split; [reflexivity|]);
      (split; [reflexivity|]);
      (split; [apply V; now apply accepted_valid with (req := req)|]);
      first [reflexivity|split; [reflexivity|apply L]].
  - RevC_cases st req w; intros E H; run_equation E;
      try (left; exact H); new_event H;
      exists c; (split; [reflexivity|]); (split; [reflexivity|]);
      (split; [reflexivity|]);
      (split; [apply V; now apply accepted_valid with (req := req)|]);
      apply L.
  - RevB_cases st req w; intros E H; run_equation E;
      try (left; exact H); new_event H.
    apply notify_mails_once in H as [-> _].
    eexists. split; [reflexivity|]. split; [reflexivity|]. apply L.
Qed.

Lemma empty_body_reads_nothing req :
  (forall props, body req = Some (JObject props) -> props = []) ->
  empty_payload req.
Proof.
  intros H k. unfold body_or_empty.
  destruct (body req) as [v|]; [|reflexivity].
  destruct (ToBoolean v); [|reflexivity].
  destruct v; try reflexivity.
  now rewrite (H _ eq_refl).
Qed.

(** X13: a request without a usable body is a bad request.  When the
    body is missing, [null], a primitive, an array or the empty object,
    every field reads as [undefined]: the three revisions answer 400
    (['Invalid input.'] in A and C, ['Missing required fields'] in B) and
    leave the world as it was. *)
Theorem empty_payload_is_a_bad_request stA stB stC req w :
  (forall props, body req = Some (JObject props) -> props = []) ->
  RevA.contact stA req w = (Normal (respond 400 invalid_json), w) /\
  RevB.contact stB req w = (Normal (respond 400 missing_json), w) /\
  RevC.contact stC req w = (Normal (respond 400 invalid_json), w).
Proof.
  intro H. apply empty_body_reads_nothing in H.
  pose (c0 := {| name := []; email := []; message := [];
                 c_ip := or_else (x_forwarded_for req) (remoteAddress req) |}).
  split; [|split].
  - apply RevA_invalid with (c := c0); rewrite ?H; reflexivity.
  - apply RevB_missing. unfold required_present. cbv zeta.
    now rewrite !H.
  - apply RevC_invalid with (c := c0); rewrite ?H; reflexivity.
Qed.

Lemma accepted_not_honeypot req c :
  accepted_submission req = Some c ->
  truthy (Get (body_or_empty (body req)) (lit "company")) = false.
Proof. intro H. now apply accepted_submission_inv in H. Qed.

(** X14: the bare [{success: true}] marks the honeypot, and nothing else
    does.  In revisions A and C the response body is [{success: true}]
    with no other field exactly when the [company] field of the payload is
    truthy (a non-empty string, a non-zero number, [true], any array or
    object). *)
Theorem bare_success_iff_honeypot :
  (forall st req w r w',
      RevA.contact st req w = (Normal r, w') ->
      (json r = ok_json <->
       truthy (Get (body_or_empty (body req)) (lit "company")) = true)) /\
  (forall st req w r w',
      RevC.contact st req w = (Normal r, w') ->
      (json r = ok_json <->
       truthy (Get (body_or_empty (body req)) (lit "company")) = true)).
Proof.
  split; intros st req w r w'.
  - RevA_cases st req w; intros E; run_equation E;
      try (apply accepted_not_honeypot in Hacc as Hc); rewrite Hc;
      (split; [intro F; first [discriminate F|reflexivity]
              |intro F; first [discriminate F|reflexivity]]).
  - RevC_cases st req w; intros E; run_equation E;
      try (apply accepted_not_honeypot in Hacc as Hc); rewrite Hc;
      (split; [intro F; first [discriminate F|reflexivity]
              |intro F; first [discriminate F|reflexivity]]).
Qed.

Lemma RevA_boot_flag penv createTransport connect model :
  RevA.dbReady (RevA.boot penv createTransport connect model) =
  is_some (RevA.storage (RevA.boot penv createTransport connect model)).
Proof.
  unfold RevA.boot, RevA.storage.
  destruct (env_set (MONGO_URI penv)); [destruct connect|]; reflexivity.
Qed.

(** X16: after start-up, the health endpoint of revision A predicts the
    flags of the contact responses.  For a server state produced by the
    start-up sequence, every contact response that carries [saved] has it
    equal to the [db] flag of [/health], and every response that carries
    [mailed] has it equal to the [mail] flag. *)
Theorem RevA_health_predicts_response_flags
  penv createTransport connect model req w r w' :
  let st := RevA.boot penv createTransport connect model in
  RevA.contact st req w = (Normal r, w') ->
  (forall b, Get (json r) (lit "saved") = Some (JBool b) ->
             Get (json (RevA.health st)) (lit "db") = Some (JBool b)) /\
  (forall b, Get (json r) (lit "mailed") = Some (JBool b) ->
             Get (json (RevA.health st)) (lit "mail") = Some (JBool b)).
Proof.
  intro st.
  assert (D : Get (json (RevA.health st)) (lit "db")
              = Some (JBool (is_some (RevA.storage st)))).
  { change (Get (json (RevA.health st)) (lit "db"))
      with (Some (JBool (RevA.dbReady st))).
    unfold st. now rewrite RevA_boot_flag. }
  assert (T : Get (json (RevA.health st)) (lit "mail")
              = Some (JBool (is_some (RevA.transporter st)))) by reflexivity.
  rewrite D, T. clearbody st.
  RevA_cases st req w; intros E; run_equation E;
    (split; intros b H; read_flag H; reflexivity).
Qed.

(** X15: when the collaborators are called.  In revision A the storage
    collaborator is called exactly when the submission is accepted and the
    server has storage, and a mail is handed to the transporter exactly
    when the submission is accepted, a transporter is configured, and the
    write was skipped or succeeded.  In revision B the storage collaborator
    is called exactly when the three fields are truthy and the model
    exists, whatever the fields contain. *)
Theorem collaborators_are_called_exactly_when :
  (forall st req w r w',
      RevA.contact st req w = (Normal r, w') ->
      exists stored evs,
        w' = extend w stored evs /\
        ((exists doc, In (DbWrite doc) evs) <->
         is_some (accepted_submission req) && is_some (RevA.storage st)
         = true) /\
        ((exists m, In (MailSend m) evs) <->
         is_some (accepted_submission req) && is_some (RevA.transporter st)
         && (negb (is_some (RevA.storage st)) || nonempty_store stored)
         = true)) /\
  (forall st req w r w',
      RevB.contact st req w = (Normal r, w') ->
      exists stored evs,
        w' = extend w stored evs /\
        ((exists doc, In (DbWrite doc) evs) <->
         required_present req && is_some (RevB.Contact st) = true)).
Proof.
  split; intros st req w r w'.
  - RevA_cases st req w; intros E; run_equation E; frame_by_cases;
      cbn [is_some andb orb negb nonempty_store];
      (split; (split; [intros [x Hx]; events; try reflexivity
                      |intro F; rewrite ?andb_false_r in F;
                       first [discriminate F|eexists; simpl; eauto]])).
  - RevB_cases st req w; intros E; run_equation E; frame_by_cases;
      cbn [is_some andb];
      (split; [intros [x Hx]; events; try reflexivity
              |intro F; first [discriminate F|eexists; simpl; eauto]]).
Qed.

(** X20: error responses carry fixed text.  In each revision the body of
    a 400 and the body of a 500 are constants of the handler: whatever was
    thrown (a [TypeError], a rejected write, a failed delivery), nothing of
    it reaches the caller. *)
Theorem error_bodies_are_fixed :
  (forall st req w r w',
      RevA.contact st req w = (Normal r, w') ->
      (status r = 400%N -> json r = invalid_json) /\
      (status r = 500%N -> json r = server_error_json)) /\
  (forall st req w r w',
      RevB.contact st req w = (Normal r, w') ->
      (status r = 400%N -> json r = missing_json) /\
      (status r = 500%N -> json r = server_error_json_B)) /\
  (forall st req w r w',
      RevC.contact st req w = (Normal r, w') ->
      (status r = 400%N -> json r = invalid_json) /\
      (status r = 500%N -> json r = server_error_json)).
Proof.
  split; [|split]; intros st req w r w'.
  - RevA_cases st req w; intros E; run_equation E;
      (split; intro S; first [discriminate S|reflexivity]).
  - RevB_cases st req w; intros E; run_equation E;
      (split; intro S; first [discriminate S|reflexivity]).
  - RevC_cases st req w; intros E; run_equation E;
      (split; intro S; first [discriminate S|reflexivity]).
Qed.

End Further.

(** ** Trimming and the shape of accepted addresses *)

Section StringFacts.

Context {NUM : JsNumber} {ENGINE : JsEngine}.

Lemma trimStart_no_lead s : no_lead (trimStart s).
Proof.
  induction s as [|c s IH]; simpl; [exact I|].
  destruct (is_space c) eqn:E; [exact IH|exact E].
Qed.

Lemma trimStart_fixed s : no_lead s -> trimStart s = s.
Proof. destruct s as [|c s]; simpl; [reflexivity|]. now intros ->. Qed.

Lemma trimStart_app l c r :
  is_space c = false -> trimStart (l ++ c :: r) = trimStart l ++ c :: r.
Proof.
  intro Hc. induction l as [|a l IH]; simpl.
  - now rewrite Hc.
  - destruct (is_space a); [exact IH|reflexivity].
Qed.

Lemma trimEnd_no_trail s : no_trail (trimEnd s).
Proof.
  unfold no_trail, trimEnd. rewrite rev_involutive. apply trimStart_no_lead.
Qed.

Lemma trimEnd_fixed s : no_trail s -> trimEnd s = s.
Proof.
  unfold no_trail, trimEnd. intro H.
  rewrite (@trimStart_fixed _ H). apply rev_involutive.
Qed.

Lemma trimEnd_cons c s :
  is_space c = false -> trimEnd (c :: s) = c :: trimEnd s.
Proof.
  intro Hc. unfold trimEnd. simpl rev at 2.
  rewrite (@trimStart_app (rev s) c [] Hc), rev_app_distr. reflexivity.
Qed.

Lemma trimEnd_no_lead s : no_lead s -> no_lead (trimEnd s).
Proof.
  destruct s as [|c s]; [intros _; exact I|]. simpl. intro Hc.
  now rewrite (@trimEnd_cons c s Hc).
Qed.

Lemma trim_no_lead s : no_lead (trim s).
Proof. apply trimEnd_no_lead, trimStart_no_lead. Qed.

Lemma trim_no_trail s : no_trail (trim s).
Proof. apply trimEnd_no_trail. Qed.

Lemma trim_fixed s : no_lead s -> no_trail s -> trim s = s.
Proof.
  intros Hl Ht. unfold trim. rewrite (@trimStart_fixed _ Hl).
  now apply trimEnd_fixed.
Qed.

Lemma trim_idempotent s : trim (trim s) = trim s.
Proof. apply trim_fixed; [apply trim_no_lead|apply trim_no_trail]. Qed.

Lemma trimStart_nil_iff s : trimStart s = [] <-> forallb is_space s = true.
Proof.
  induction s as [|c s IH]; simpl; [tauto|].
  destruct (is_space c); simpl; [exact IH|].
  split; discriminate.
Qed.

Lemma trim_nil_iff s : trim s = [] <-> forallb is_space s = true.
Proof.
  rewrite <- trimStart_nil_iff. unfold trim. split.
  - intro H. pose proof (trimStart_no_lead s) as L.
    destruct (trimStart s) as [|c t]; [reflexivity|].
    simpl in L. rewrite (@trimEnd_cons c t L) in H. discriminate.
  - now intros ->.
Qed.

(** X8: normalisation is idempotent.  Whatever [String(x || '').trim()]
    returns neither starts nor ends with whitespace, and normalising it
    again returns it unchanged: the [trim] setters of the schema have
    nothing left to do on the cleaned fields of revisions A and C. *)
Theorem normalization_is_idempotent o s :
  clean_field o = Normal s ->
  no_lead s /\ no_trail s /\ clean_field (Some (JString s)) = Normal s.
Proof.
  unfold clean_field at 1.
  destruct (ToString (or_empty o)) as [s0|e]; [|discriminate].
  intro E. injection E as <-.
  split; [apply trim_no_lead|]. split; [apply trim_no_trail|].
  unfold clean_field, or_empty, ToString. cbn [ToBoolean].
  destruct (nonempty (trim s0)) eqn:N; cbn [ToStringWithin].
  - now rewrite trim_idempotent.
  - destruct (trim s0); [reflexivity|discriminate].
Qed.

(** X9: a field of whitespace only counts as missing.  A string
    normalises to the empty string exactly when all its code units are
    whitespace (spaces, tabs, line terminators, no-break and other Unicode
    spaces, the byte order mark). *)
Theorem whitespace_only_field_is_blank s :
  clean_field (Some (JString s)) = Normal [] <-> forallb is_space s = true.
Proof.
  rewrite <- trim_nil_iff. unfold clean_field, or_empty, ToString.
  cbn [ToBoolean].
  destruct s as [|c s]; cbn [nonempty ToStringWithin].
  - split; reflexivity.
  - split; [intro E; now injection E|now intros ->].
Qed.

Lemma filter_at_free l :
  Forall (fun c => not_space_at c = true) l -> filter (char_eqb AT) l = [].
Proof.
  induction 1 as [|c l Hc _ IH]; [reflexivity|]. cbn [filter].
  unfold not_space_at in Hc. apply negb_true_iff, orb_false_iff in Hc.
  destruct Hc as [_ ->]. exact IH.
Qed.

Lemma no_trail_app_last s z :
  nonspace_noat z -> no_trail (s ++ z).
Proof.
  intros [Hne Hz]. unfold no_trail. rewrite rev_app_distr.
  destruct z as [|c z] using rev_ind; [contradiction|].
  rewrite rev_app_distr. simpl.
  apply Forall_app in Hz as [_ Hc]. inversion Hc; subst.
  now apply not_space_at_nonspace.
Qed.

(** X10: what an accepted address looks like.  A string the email
    predicate accepts holds no whitespace at all (so no line break),
    holds exactly one at-sign, has at least five code units, and is
    unchanged by trimming. *)
Theorem accepted_email_is_clean s :
  emailOk s = true ->
  Forall (fun c => is_space c = false) s /\
  count_at s = 1 /\ 5 <= List.length s /\ trim s = s.
Proof.
  intro H. apply emailOk_iff_shape in H.
  destruct H as (x & y & z & -> & Hx & Hy & Hz).
  pose proof Hx as [Nx Fx]. pose proof Hy as [Ny Fy]. pose proof Hz as [Nz Fz].
  split; [|split; [|split]].
  - apply Forall_app. split;
      [eapply Forall_impl; [|exact Fx]; intros; now apply not_space_at_nonspace|].
    constructor; [reflexivity|].
    apply Forall_app. split;
      [eapply Forall_impl; [|exact Fy]; intros; now apply not_space_at_nonspace|].
    constructor; [reflexivity|].
    eapply Forall_impl; [|exact Fz]. intros; now apply not_space_at_nonspace.
  - unfold count_at. rewrite filter_app. cbn [filter].
    change (char_eqb AT AT) with true. cbv iota.
    rewrite filter_app. cbn [filter]. change (char_eqb AT DOT) with false.
    cbv iota.
    rewrite !filter_at_free by assumption. reflexivity.
  - rewrite length_app. cbn [List.length]. rewrite length_app.
    cbn [List.length].
    destruct x; [contradiction|]. destruct y; [contradiction|].
    destruct z; [contradiction|]. simpl. lia.
  - apply trim_fixed.
    + destruct x as [|c x]; [contradiction|]. simpl.
      inversion Fx; subst. now apply not_space_at_nonspace.
    + change (x ++ AT :: y ++ DOT :: z) with (x ++ (AT :: y) ++ DOT :: z).
      rewrite app_assoc.
      change (DOT :: z) with ([DOT] ++ z). rewrite app_assoc.
      now apply no_trail_app_last.
Qed.

End StringFacts.

(** ** The start-up report *)

Section CheckEnvFacts.

Context {NUM : JsNumber} {ENGINE : JsEngine}.

Lemma checkEnv_notes has penv cenv :
  tl (checkEnv has penv cenv) =
  List.map (fun n => Warn [lit "[env]"; n]) (collected_notes penv).
Proof. reflexivity. Qed.

Lemma checkEnv_note_line has penv cenv n :
  In (Warn [lit "[env]"; n]) (checkEnv has penv cenv) <->
  In n (collected_notes penv).
Proof.
  unfold checkEnv. cbv zeta. fold (collected_notes penv). cbn [In]. split.
  - intros [H|H].
    + destruct (if has then missing_keys cenv else []); vm_compute in H;
        discriminate H.
    + apply in_map_iff in H as (n' & E & Hn). now injection E as <-.
  - intro H. right. apply in_map_iff. eauto.
Qed.

Lemma missing_keys_nil cenv :
  missing_keys cenv = [] <->
  unset_count [CLOUDINARY_CLOUD_NAME cenv; CLOUDINARY_API_KEY cenv;
               CLOUDINARY_API_SECRET cenv] = 0.
Proof.
  unfold missing_keys, unset_count. cbn [flat_map filter snd fst].
  destruct (env_set (CLOUDINARY_CLOUD_NAME cenv)),
    (env_set (CLOUDINARY_API_KEY cenv)),
    (env_set (CLOUDINARY_API_SECRET cenv)); cbn;
    split; intro H; first [reflexivity|discriminate H].
Qed.

(** X18: what [checkEnv] prints.  It prints one status line followed by
    one [[env]] warning for each of [SENDGRID_SMTP_PASS], [MAIL_FROM],
    [MAIL_TO] and [MONGO_URI] that is unset or empty.  The status line is
    ['[env] required vars present'] exactly when there is no upload route
    or the three Cloudinary variables are all set: without an upload route
    the Cloudinary variables are never reported. *)
Theorem checkEnv_report has penv cenv :
  List.length (checkEnv has penv cenv) =
  1 + unset_count [SENDGRID_SMTP_PASS penv; MAIL_FROM penv; MAIL_TO penv;
                   MONGO_URI penv] /\
  (hd_error (checkEnv has penv cenv) =
   Some (Log [lit "[env] required vars present"]) <->
   has = false \/
   unset_count [CLOUDINARY_CLOUD_NAME cenv; CLOUDINARY_API_KEY cenv;
                CLOUDINARY_API_SECRET cenv] = 0) /\
  (forall l, In l (tl (checkEnv has penv cenv)) ->
             exists n, l = Warn [lit "[env]"; n]).
Proof.
  split; [|split].
  - unfold checkEnv, unset_count, note_unless. cbv zeta.
    cbn [List.length filter]. rewrite length_map.
    destruct (env_set (SENDGRID_SMTP_PASS penv)),
      (env_set (MAIL_FROM penv)), (env_set (MAIL_TO penv)),
      (env_set (MONGO_URI penv)); reflexivity.
  - rewrite <- missing_keys_nil. unfold checkEnv. cbv zeta. cbn [hd_error].
    destruct has.
    + destruct (missing_keys cenv) as [|k ks].
      * split; auto.
      * split; [discriminate|]. intros [H|H]; discriminate H.
    + split; auto.
  - rewrite checkEnv_notes. intros l H.
    apply in_map_iff in H as (n & <- & _). eauto.
Qed.

(** X19: the start-up report agrees with the start-up.  The warning that
    email will be disabled is printed exactly when revision A starts
    without a transporter; and when the warning that DB features are
    disabled is printed, revision A starts without storage and its health
    endpoint reports [db: false]. *)
Theorem checkEnv_agrees_with_boot
  has penv cenv createTransport connect model :
  let st := RevA.boot penv createTransport connect model in
  (In (Warn [lit "[env]"; lit NOTE_MAIL]) (checkEnv has penv cenv) <->
   RevA.transporter st = None) /\
  (In (Warn [lit "[env]"; lit NOTE_DB]) (checkEnv has penv cenv) ->
   RevA.storage st = None /\
   Get (json (RevA.health st)) (lit "db") = Some (JBool false)).
Proof.
  intro st. unfold st. rewrite !checkEnv_note_line.
  unfold collected_notes, note_unless, RevA.boot, RevA.storage.
  destruct (env_set (SENDGRID_SMTP_PASS penv)),
    (env_set (MAIL_FROM penv)), (env_set (MAIL_TO penv)),
    (env_set (MONGO_URI penv)); try destruct connect;
    cbn [app In RevA.transporter RevA.dbReady RevA.Contact];
    (split; [split; intro H|intro H]);
    repeat match goal with
           | H : _ \/ _ |- _ => destruct H as [H|H]
           | H : False |- _ => destruct H
           | H : @eq jsstring _ _ |- _ => vm_compute in H; discriminate H
           | H : @eq (option Transporter) _ _ |- _ => discriminate H
           end;
    auto.
Qed.

End CheckEnvFacts.

(** ** Further worked runs *)

Section MoreRuns.

Import Fixtures MoreFixtures.
#[local] Existing Instance IntegerNumbers.
#[local] Existing Instance ThousandFrames.

(** X1 at the submission with an empty name. *)
Lemma bad_request_run :
  snd (RevA.contact A_healthy no_name world0) = world0 /\
  snd (RevB.contact B_healthy no_name world0) = world0 /\
  snd (RevC.contact C_mail_down no_name world0) = world0.
Proof.
  split; [|split].
  - exact (proj1 (@bad_request_leaves_world_unchanged IntegerNumbers ThousandFrames)
             A_healthy no_name world0 (respond 400 invalid_json)
             (snd (RevA.contact A_healthy no_name world0)) eq_refl eq_refl).
  - exact (proj1 (proj2 (@bad_request_leaves_world_unchanged IntegerNumbers ThousandFrames))
             B_healthy no_name world0 (respond 400 missing_json)
             (snd (RevB.contact B_healthy no_name world0)) eq_refl eq_refl).
  - exact (proj2 (proj2 (@bad_request_leaves_world_unchanged IntegerNumbers ThousandFrames))
             C_mail_down no_name world0 (respond 400 invalid_json)
             (snd (RevC.contact C_mail_down no_name world0)) eq_refl eq_refl).
Defined.

(** X3 at Ada's submission, storage and mail healthy. *)
Lemma store_append_run :
  exists stored evs,
    snd (RevA.contact A_healthy ada world0) = extend world0 stored evs /\
    List.length stored <= 1.
Proof.
  exact (proj1 (@store_is_append_only IntegerNumbers ThousandFrames) A_healthy ada world0
           (respond 200 (success_json true (Some hex_id) true))
           (snd (RevA.contact A_healthy ada world0)) eq_refl).
Defined.

(** X4 at the submission with an empty name. *)
Lemma unaccepted_submission_run :
  (exists r,
      RevA.contact A_healthy no_name world0 = (Normal r, world0) \/
      RevA.contact A_healthy no_name world0 =
      (Normal r, extend world0 [] [failed])) /\
  (exists r,
      RevC.contact C_mail_down no_name world0 = (Normal r, world0) \/
      RevC.contact C_mail_down no_name world0 =
      (Normal r, extend world0 [] [failed])).
Proof.
  exact (@unaccepted_submission_reaches_no_collaborator IntegerNumbers ThousandFrames
           A_healthy C_mail_down no_name world0 eq_refl).
Defined.

(** X5 at Ada's submission: the one write is the record built from the
    cleaned fields. *)
Lemma written_record_run :
  In (DbWrite ada_doc) (trace world0) \/
  exists c model,
    accepted_submission ada = Some c /\ invalid c = false /\
    RevA.storage A_healthy = Some model /\
    ada_doc = construct model (db world0) (fields_of c).
Proof.
  apply (proj1 (@written_record_is_built_from_the_submission IntegerNumbers ThousandFrames)
           A_healthy ada world0
           (respond 200 (success_json true (Some hex_id) true))
           (snd (RevA.contact A_healthy ada world0)) ada_doc eq_refl).
  left. reflexivity.
Defined.

(** X6 at Ada's submission. *)
Lemma mail_follows_write_run :
  exists stored evs,
    snd (RevA.contact A_healthy ada world0) = extend world0 stored evs /\
    (forall doc m, In (DbWrite doc) evs -> In (MailSend m) evs ->
                   stored = [doc]).
Proof.
  exact (proj1 (@mail_follows_successful_write IntegerNumbers ThousandFrames) A_healthy ada
           world0 (respond 200 (success_json true (Some hex_id) true))
           (snd (RevA.contact A_healthy ada world0)) eq_refl).
Defined.

(** X7 at Ada's submission with and without storage. *)
Lemma saved_flag_run :
  (exists stored evs,
      snd (RevA.contact A_healthy ada world0) = extend world0 stored evs /\
      (true = true <-> stored <> []) /\
      (forall doc, stored = [doc] ->
                   Get (success_json true (Some hex_id) true) (lit "id")
                   = Some (JString (_id doc))) /\
      (stored = [] ->
       Get (success_json true (Some hex_id) true) (lit "id") = Some JNull)) /\
  (exists stored evs,
      snd (RevA.contact A_bare ada world0) = extend world0 stored evs /\
      (false = true <-> stored <> []) /\
      (forall doc, stored = [doc] ->
                   Get (success_json false None false) (lit "id")
                   = Some (JString (_id doc))) /\
      (stored = [] ->
       Get (success_json false None false) (lit "id") = Some JNull)).
Proof.
  split.
  - exact (proj1 (@saved_flag_is_truthful IntegerNumbers ThousandFrames) A_healthy ada world0
             (respond 200 (success_json true (Some hex_id) true))
             (snd (RevA.contact A_healthy ada world0)) true eq_refl eq_refl).
  - exact (proj1 (@saved_flag_is_truthful IntegerNumbers ThousandFrames) A_bare ada world0
             (respond 200 (success_json false None false))
             (snd (RevA.contact A_bare ada world0)) false eq_refl eq_refl).
Defined.

(** X8 at the name ["  Ada "]. *)
Lemma normalization_idempotent_run :
  no_lead (lit "Ada") /\ no_trail (lit "Ada") /\
  clean_field (Some (JString (lit "Ada"))) = Normal (lit "Ada").
Proof.
  exact (@normalization_is_idempotent IntegerNumbers ThousandFrames padded_name (lit "Ada")
           eq_refl).
Defined.

(** X10 at ["a@b.co"]. *)
Lemma accepted_email_run :
  Forall (fun c => is_space c = false) (lit "a@b.co") /\
  count_at (lit "a@b.co") = 1 /\ 5 <= List.length (lit "a@b.co") /\
  trim (lit "a@b.co") = lit "a@b.co".
Proof. exact (@accepted_email_is_clean (lit "a@b.co") eq_refl). Defined.

(** X13 at the request without a body. *)
Lemma empty_payload_run :
  RevA.contact A_healthy no_body world0 =
  (Normal (respond 400 invalid_json), world0) /\
  RevB.contact B_healthy no_body world0 =
  (Normal (respond 400 missing_json), world0) /\
  RevC.contact C_mail_down no_body world0 =
  (Normal (respond 400 invalid_json), world0).
Proof.
  apply (@empty_payload_is_a_bad_request IntegerNumbers ThousandFrames A_healthy B_healthy
           C_mail_down no_body world0).
  intros props H. discriminate H.
Defined.

(** X16 at Ada's submission after a start-up without any configuration. *)
Lemma health_predicts_run :
  (forall b, Get (success_json false None false) (lit "saved")
             = Some (JBool b) ->
             Get (json (RevA.health A_bare)) (lit "db") = Some (JBool b)) /\
  (forall b, Get (success_json false None false) (lit "mailed")
             = Some (JBool b) ->
             Get (json (RevA.health A_bare)) (lit "mail") = Some (JBool b)).
Proof.
  exact (@RevA_health_predicts_response_flags IntegerNumbers ThousandFrames bare_env smtp
           (Normal tt) mongo ada world0
           (respond 200 (success_json false None false))
           (snd (RevA.contact A_bare ada world0)) eq_refl).
Defined.

End MoreRuns.
